(** * ETL pipelines: churn (ETL_PIPELINE) and air quality (urban_air_pollutants)

    A shallow embedding of the transform and load stages of the two
    pipelines, and the properties of batching, retrying, report totals,
    binning, categorical coding, missing-value handling and record
    coercion that the design document states about them.

    Conventions.
    - The churn transform works on a DataFrame by columns, a finite map
      from column name to the list of its cells; the loaders work on the
      list of its rows, a row being, like a Python dict, a finite map
      from column name to cell.
    - A float is [FNaN], an infinity or a finite rational: comparisons of
      floats against the integer thresholds of the code are exact, and the
      rounding of finite sums plays no part in any statement below.
    - Code that can raise returns a [result]; the remote store is a
      function of the number of calls made so far and of the payload, so
      that every pattern of failures is an instance. *)

From Stdlib Require Import QArith ZArith List String Lia Lqa.
From stdpp Require Import gmap strings list fin_maps.

Open Scope string_scope.
Open Scope list_scope.
Open Scope nat_scope.

(** ** Python values and control *)

Module Py.

Inductive exn : Type :=
  | IndexError
  | KeyError
  | AttributeError
  | TypeError
  | ValueError.

Inductive result (A : Type) : Type :=
  | Ok (a : A)
  | Raise (e : exn).

Arguments Ok {A} a.
Arguments Raise {A} e.

#[global] Instance result_ret : MRet result := fun _ a => Ok a.
#[global] Instance result_bind : MBind result := fun _ _ f m =>
  match m with
  | Ok a => f a
  | Raise e => Raise e
  end.

Definition returns {A : Type} (m : result A) : Prop :=
  match m with
  | Ok _ => True
  | Raise _ => False
  end.

(** [for x in xs: body], the body raising or not. *)
Fixpoint for_each {A B : Type} (body : A -> result B) (xs : list A)
  : result (list B) :=
  match xs with
  | [] => Ok []
  | x :: rest =>
      b ← body x;
      bs ← for_each body rest;
      Ok (b :: bs)
  end.

(** [range(start, stop, step)] for a non-negative [start] and [step]:
    [ValueError] when the step is zero, else [start], [start + step], ...
    below [stop]. *)
Definition range_len (start stop step : nat) : nat :=
  (stop - start + (step - 1)) / step.

Definition range3 (start stop step : nat) : result (list nat) :=
  match step with
  | O => Raise ValueError
  | S _ => Ok (map (fun k => start + k * step) (seq 0 (range_len start stop step)))
  end.

(** [range(n)] *)
Definition range (n : nat) : list nat := seq 0 n.

(** [xs[start:stop]], also [df.iloc[start:stop]]: a slice never raises and
    is clipped to the length of [xs]. *)
Definition slice {A : Type} (xs : list A) (start stop : nat) : list A :=
  take (stop - start) (drop start xs).

End Py.

Import Py.

(** ** Batching: [for i in range(0, total_rows, BATCH_SIZE): df.iloc[i : i + BATCH_SIZE]]

    Both loaders cut the frame the same way (ETL_PIPELINE/scripts/load.py
    lines 116-117, urban_air_pollutants/load.py lines 126-127). *)

Module Batch.

Definition starts (total_rows batch_size : nat) : result (list nat) :=
  range3 0 total_rows batch_size.

Definition chunk_at {A : Type} (df : list A) (batch_size i : nat) : list A :=
  slice df i (i + batch_size).

Definition batches {A : Type} (df : list A) (batch_size : nat)
  : result (list (list A)) :=
  idx ← starts (length df) batch_size;
  Ok (map (chunk_at df batch_size) idx).

End Batch.

(** ** Floats (numpy float64 as far as the code observes it) *)

Module Float.

Inductive float : Type :=
  | FNaN
  | FInf (negative : bool)
  | FFin (q : Q).

Definition of_Z (z : Z) : float := FFin (inject_Z z).

Definition isnan (x : float) : bool :=
  match x with
  | FNaN => true
  | _ => false
  end.

(** [x < y]; every comparison with NaN is false. *)
Definition ltb (x y : float) : bool :=
  match x, y with
  | FNaN, _ | _, FNaN => false
  | FInf true, FInf true => false
  | FInf true, _ => true
  | _, FInf true => false
  | FInf false, _ => false
  | FFin _, FInf false => true
  | FFin a, FFin b => negb (Qle_bool b a)
  end.

(** [x <= y] *)
Definition leb (x y : float) : bool :=
  match x, y with
  | FNaN, _ | _, FNaN => false
  | FInf true, _ => true
  | _, FInf false => true
  | _, FInf true => false
  | FInf false, _ => false
  | FFin a, FFin b => Qle_bool a b
  end.

(** [x > y] *)
Definition gtb (x y : float) : bool := ltb y x.

(** [x == y] *)
Definition eqb (x y : float) : bool :=
  match x, y with
  | FInf s, FInf t => Bool.eqb s t
  | FFin a, FFin b => Qeq_bool a b
  | _, _ => false
  end.

Definition add (x y : float) : float :=
  match x, y with
  | FNaN, _ | _, FNaN => FNaN
  | FInf s, FInf t => if Bool.eqb s t then FInf s else FNaN
  | FInf s, FFin _ | FFin _, FInf s => FInf s
  | FFin a, FFin b => FFin (a + b)
  end.

Definition mul (x y : float) : float :=
  match x, y with
  | FNaN, _ | _, FNaN => FNaN
  | FInf s, FInf t => FInf (xorb s t)
  | FInf s, FFin q | FFin q, FInf s =>
      if Qeq_bool q 0 then FNaN else FInf (xorb s (negb (Qle_bool 0 q)))
  | FFin a, FFin b => FFin (a * b)
  end.

End Float.

Import Float.

(** ** ETL_PIPELINE/scripts: the churn pipeline *)

Module Churn.

(** A cell of the churn frame. [CMedianMethod] is the bound method object
    [df[col].median], which transform.py line 70 passes to [fillna]
    without calling it. *)
Inductive cell : Type :=
  | CInt (z : Z)
  | CFloat (x : float)
  | CStr (s : string)
  | CNone
  | CMedianMethod.

(** A DataFrame by columns: [df[col]] is a lookup, [df[col] = ...] an insert. *)
Abbreviation column := (list cell).
Abbreviation frame := (gmap string (list cell)).

(** [pd.isna] on one cell *)
Definition isna (c : cell) : bool :=
  match c with
  | CFloat FNaN | CNone => true
  | _ => false
  end.

Definition as_float (c : cell) : option float :=
  match c with
  | CInt z => Some (of_Z z)
  | CFloat x => Some x
  | _ => None
  end.

(** dtype [object]: some cell is not a number *)
Definition is_object (col : column) : bool :=
  existsb (fun c => match as_float c with None => true | Some _ => false end) col.

Definition getcol (df : frame) (col : string) : result column :=
  match df !! col with
  | Some c => Ok c
  | None => Raise KeyError
  end.

(** [Series.fillna(value, inplace=True)]: every missing cell becomes
    [value], whatever object [value] is. *)
Definition fillna (value : cell) (col : column) : column :=
  map (fun c => if isna c then value else c) col.

(** [numpy.searchsorted(bins, x, side)] on sorted [bins] *)
Definition searchsorted (bins : list float) (side_left : bool) (x : float) : nat :=
  length (List.filter (fun b => if side_left then ltb b x else leb b x) bins).

(** [pd.cut]: the code of the bin of [x], or [None] for NaN. *)
Definition cut_code (bins : list float) (right include_lowest : bool) (x : float)
  : option nat :=
  let ids := searchsorted bins right x in
  let ids :=
    if include_lowest && match bins with b0 :: _ => eqb x b0 | [] => false end
    then 1 else ids in
  if isnan x || (ids =? length bins)%nat || (ids =? 0)%nat then None else Some (ids - 1).

(** The label [pd.cut] gives one cell of the column. *)
Definition cut_cell (bins : list float) (labels : list string)
    (right include_lowest : bool) (c : cell) : result cell :=
  match as_float c with
  | None => Raise TypeError
  | Some x =>
      match cut_code bins right include_lowest x with
      | None => Ok (CFloat FNaN)
      | Some i =>
          match labels !! i with
          | Some l => Ok (CStr l)
          | None => Ok (CFloat FNaN)
          end
      end
  end.

Definition cut (col : column) (bins : list float) (labels : list string)
    (right include_lowest : bool) : result column :=
  if negb (length labels =? length bins - 1)%nat then Raise ValueError else
  for_each (cut_cell bins labels right include_lowest) col.

(** [Series.map(dict)]: a value that is no key of the dict maps to NaN. *)
Definition map_dict (d : gmap string Z) (c : cell) : cell :=
  match c with
  | CStr s =>
      match d !! s with
      | Some v => CInt v
      | None => CFloat FNaN
      end
  | _ => CFloat FNaN
  end.

Definition tenure_bins : list float := [of_Z 0; of_Z 12; of_Z 36; of_Z 60; FInf false].
Definition tenure_labels : list string := ["New"; "Regular"; "Loyal"; "Champion"].
Definition charge_bins : list float := [of_Z 0; of_Z 30; of_Z 70; FInf false].
Definition charge_labels : list string := ["Low"; "Medium"; "High"].

(** transform.py lines 76-81: [right] keeps its default [True]. *)
Definition tenure_group (col : column) : result column :=
  cut col tenure_bins tenure_labels true true.

(** transform.py lines 84-89: [right=False]. *)
Definition monthly_charge_segment (col : column) : result column :=
  cut col charge_bins charge_labels false false.

Definition internet_service_codes : gmap string Z :=
  list_to_map [("DSL", 1%Z); ("Fiber optic", 1%Z); ("No", 0%Z)].

Definition contract_codes : gmap string Z :=
  list_to_map [("Month-to-month", 0%Z); ("One year", 1%Z); ("Two year", 2%Z)].

Definition has_internet_service (c : cell) : cell := map_dict internet_service_codes c.

(** [lambda x: 1 if x == "Yes" else 0] *)
Definition is_multi_line_user (c : cell) : cell :=
  match c with
  | CStr s => if String.eqb s "Yes" then CInt 1 else CInt 0
  | _ => CInt 0
  end.

Definition contract_type_code (c : cell) : cell := map_dict contract_codes c.

Section Transform.
(** The number a CSV field spells, if it spells one. *)
Variable parse_number : string -> option Q.

(** [pd.to_numeric(_, errors='coerce')] on one cell *)
Definition to_numeric (c : cell) : cell :=
  match c with
  | CInt z => CInt z
  | CFloat x => CFloat x
  | CStr s =>
      match parse_number s with
      | Some q => CFloat (FFin q)
      | None => CFloat FNaN
      end
  | _ => CFloat FNaN
  end.

(** lines 68-70: [for col in cols: df[col].fillna(df[col].median, inplace=True)] *)
Fixpoint fill_numeric (cols : list string) (df : frame) : result frame :=
  match cols with
  | [] => Ok df
  | col :: rest =>
      c ← getcol df col;
      fill_numeric rest (<[col := fillna CMedianMethod c]> df)
  end.

(** lines 72-74: every column of dtype object gets ["Unknown"]. *)
Definition fill_categorical (df : frame) : frame :=
  (fun col => if is_object col then fillna (CStr "Unknown") col else col) <$> df.

Fixpoint drop_columns (cols : list string) (df : frame) : result frame :=
  match cols with
  | [] => Ok df
  | col :: rest =>
      _ ← getcol df col;
      drop_columns rest (delete col df)
  end.

(** [transform_data] between reading the raw CSV and writing the staged one. *)
Definition transform_data (df : frame) : result frame :=
  total ← getcol df "TotalCharges";
  let df := <["TotalCharges" := map to_numeric total]> df in
  df ← fill_numeric ["tenure"; "MonthlyCharges"; "TotalCharges"] df;
  let df := fill_categorical df in
  tenure ← getcol df "tenure";
  tg ← tenure_group tenure;
  let df := <["tenure_group" := tg]> df in
  charges ← getcol df "MonthlyCharges";
  seg ← monthly_charge_segment charges;
  let df := <["monthly_charge_segment" := seg]> df in
  internet ← getcol df "InternetService";
  let df := <["has_internet_service" := map has_internet_service internet]> df in
  lines ← getcol df "MultipleLines";
  let df := <["is_multi_line_user" := map is_multi_line_user lines]> df in
  contract ← getcol df "Contract";
  let df := <["contract_type_code" := map contract_type_code contract]> df in
  drop_columns ["customerID"; "gender"] df.
End Transform.

(** What [Series.median()] would return had it been called: the middle
    of the sorted non-missing numbers, or the mean of the two middle ones. *)
Fixpoint insert_sorted (x : float) (xs : list float) : list float :=
  match xs with
  | [] => [x]
  | y :: rest => if leb x y then x :: y :: rest else y :: insert_sorted x rest
  end.

Definition sort_floats (xs : list float) : list float :=
  foldr insert_sorted [] xs.

Definition numbers (col : column) : list float :=
  omap (fun c => match as_float c with
                 | Some x => if isnan x then None else Some x
                 | None => None
                 end) col.

Definition Series_median (col : column) : float :=
  let xs := sort_floats (numbers col) in
  let n := length xs in
  if (n =? 0)%nat then FNaN
  else if Nat.even n
       then mul (add (nth (n / 2 - 1) xs FNaN) (nth (n / 2) xs FNaN)) (FFin (1 # 2))
       else nth (n / 2) xs FNaN.

(** *** load.py *)

Abbreviation row := (gmap string cell).

(** What [supabase.table(..).insert(records).execute()] did: returned a
    response without error, returned one that carries an error, or raised. *)
Inductive response : Type :=
  | RespOk
  | RespError
  | RespRaises.

(** The observable actions of the loader, in order. *)
Inductive event : Type :=
  | Insert (records : list (gmap string cell))
  | PrintInserted (first last total_rows : nat)
  | PrintError (batch_no : nat)
  | PrintRetrying (k max_retries : nat)
  | Sleep (seconds : nat)
  | PrintFailedSkipping
  | PrintFinished
  | PrintErrorLoading.

(** line 108: [df.where(pd.notnull(df), None)] *)
Definition where_notnull (r : row) : row :=
  (fun c => if isna c then CNone else c) <$> r.

Section Load.
(** The remote store: its answer to the call number [calls] (counted
    from 0 over the run) with the given payload. *)
Variable remote : nat -> list row -> response.

Variables (batch_size max_retries total_rows : nat).

(** lines 121-140: [for retry in range(max_retries)], from the state
    where the remaining values of [retry] are [retries]. *)
Fixpoint retry_loop (start : nat) (records : list row) (retries : list nat)
    (calls : nat) : list event * nat :=
  match retries with
  | [] => ([], calls)
  | retry :: rest =>
      match remote calls records with
      | RespOk =>
          ([Insert records;
            PrintInserted (start + 1) (Nat.min (start + batch_size) total_rows) total_rows],
           S calls)
      | _ =>
          if (retry <? max_retries - 1)%nat then
            let '(tr, calls') := retry_loop start records rest (S calls) in
            (Insert records :: PrintError (start / batch_size + 1)
               :: PrintRetrying (retry + 1) max_retries :: Sleep 2 :: tr, calls')
          else
            ([Insert records; PrintError (start / batch_size + 1); PrintFailedSkipping],
             S calls)
      end
  end.

(** lines 116-140: [for start in range(0, total_rows, batch_size)] *)
Fixpoint load_batches (df : list row) (starts : list nat) (calls : nat)
  : list event * nat :=
  match starts with
  | [] => ([], calls)
  | start :: rest =>
      let records := slice df start (start + batch_size) in
      let '(tr, calls') := retry_loop start records (range max_retries) calls in
      let '(tr', calls'') := load_batches df rest calls' in
      (tr ++ tr', calls'')
  end.
End Load.

(** lines 104-145, from the frame read at line 107; the outer [except]
    prints and returns. *)
Definition load_with (remote : nat -> list row -> response)
    (batch_size max_retries : nat) (df : list row) : list event :=
  let df := map where_notnull df in
  let total_rows := length df in
  match range3 0 total_rows batch_size with
  | Ok starts =>
      fst (load_batches remote batch_size max_retries total_rows df starts 0)
        ++ [PrintFinished]
  | Raise _ => [PrintErrorLoading]
  end.

Definition batch_size : nat := 200.
Definition max_retries : nat := 3.

Definition load_to_supabase (remote : nat -> list row -> response) (df : list row)
  : list event :=
  load_with remote batch_size max_retries df.

(** The payloads of the insert calls of a trace, in order. *)
Definition inserts (tr : list event) : list (list row) :=
  omap (fun e => match e with Insert records => Some records | _ => None end) tr.

End Churn.

(** ** urban_air_pollutants: the air-quality pipeline *)

Module AirQuality.

(** *** transform.py: the raw documents *)

(** What [json.load] returns. An object is the list of its items. *)
#[local] Set Warnings "-register-all".
Inductive json : Type :=
  | JNull
  | JBool (b : bool)
  | JNum (q : Q)
  | JStr (s : string)
  | JArr (xs : list json)
  | JObj (items : list (string * json)).

(** [d[key]] on the items of a dict, the last item of a key winning as
    in [json.load]. *)
Fixpoint obj_get (items : list (string * json)) (key : string) : option json :=
  match items with
  | [] => None
  | (k, v) :: rest =>
      match obj_get rest key with
      | Some v' => Some v'
      | None => if String.eqb k key then Some v else None
      end
  end.

Fixpoint is_substring (key s : string) : bool :=
  String.prefix key s ||
  match s with
  | EmptyString => false
  | String _ rest => is_substring key rest
  end.

Fixpoint chars (s : string) : list json :=
  match s with
  | EmptyString => []
  | String a rest => JStr (String a EmptyString) :: chars rest
  end.

(** [key in v] *)
Definition contains (v : json) (key : string) : result bool :=
  match v with
  | JObj items => Ok (bool_decide (is_Some (obj_get items key)))
  | JArr xs =>
      Ok (existsb (fun x => match x with JStr s => String.eqb s key | _ => false end) xs)
  | JStr s => Ok (is_substring key s)
  | _ => Raise TypeError
  end.

(** [v[key]] for a string key *)
Definition getitem (v : json) (key : string) : result json :=
  match v with
  | JObj items =>
      match obj_get items key with
      | Some x => Ok x
      | None => Raise KeyError
      end
  | _ => Raise TypeError
  end.

(** [v.get(key, dflt)] *)
Definition get (v : json) (key : string) (dflt : json) : result json :=
  match v with
  | JObj items => Ok (default dflt (obj_get items key))
  | _ => Raise AttributeError
  end.

(** [for x in v] *)
Definition iter (v : json) : result (list json) :=
  match v with
  | JArr xs => Ok xs
  | JObj items => Ok (map JStr (remove_dups items.*1))
  | JStr s => Ok (chars s)
  | _ => Raise TypeError
  end.

(** [len(v)] *)
Definition len (v : json) : result nat :=
  match v with
  | JArr xs => Ok (length xs)
  | JObj items => Ok (length (remove_dups items.*1))
  | JStr s => Ok (String.length s)
  | _ => Raise TypeError
  end.

(** [v[i]] for an index [i >= 0] *)
Definition index (v : json) (i : nat) : result json :=
  match v with
  | JArr xs =>
      match xs !! i with
      | Some x => Ok x
      | None => Raise IndexError
      end
  | JStr s =>
      match chars s !! i with
      | Some x => Ok x
      | None => Raise IndexError
      end
  | JObj _ => Raise KeyError
  | _ => Raise TypeError
  end.

(** [v == s] for a string literal [s] *)
Definition eq_str (v : json) (s : string) : bool :=
  match v with
  | JStr s' => String.eqb s' s
  | _ => false
  end.

(** A row under construction: a dict from column name to value. *)
Abbreviation row := (gmap string json).

Definition pollutant_cols : list string :=
  ["pm10"; "pm2_5"; "carbon_monoxide"; "nitrogen_dioxide"; "sulphur_dioxide"; "ozone"].

(** lines 100-129: the row of one measurement [m] of the OpenAQ shape *)
Definition measurement_row (city_name : string) (m : json) : result row :=
  updated ← get m "lastUpdated" JNull;
  let row : row :=
    <["uv_index" := JNull]> (<["ozone" := JNull]> (<["sulphur_dioxide" := JNull]>
    (<["nitrogen_dioxide" := JNull]> (<["carbon_monoxide" := JNull]>
    (<["pm2_5" := JNull]> (<["pm10" := JNull]> (<["time" := updated]>
    (<["city" := JStr city_name]> ∅)))))))) in
  pollutant ← get m "parameter" JNull;
  value ← get m "value" JNull;
  let row := if eq_str pollutant "pm10" then <["pm10" := value]> row else row in
  let row := if eq_str pollutant "pm25" || eq_str pollutant "pm2.5"
             then <["pm2_5" := value]> row else row in
  let row := if eq_str pollutant "co" then <["carbon_monoxide" := value]> row else row in
  let row := if eq_str pollutant "no2" then <["nitrogen_dioxide" := value]> row else row in
  let row := if eq_str pollutant "so2" then <["sulphur_dioxide" := value]> row else row in
  let row := if eq_str pollutant "o3" then <["ozone" := value]> row else row in
  Ok row.

(** lines 96-129 *)
Definition station_rows (city_name : string) (station : json) : result (list row) :=
  measurements ← get station "measurements" (JArr []);
  ms ← iter measurements;
  for_each (measurement_row city_name) ms.

(** [hourly.get(key, [None])[i]] *)
Definition hourly_value (hourly : json) (key : string) (i : nat) : result json :=
  arr ← get hourly key (JArr [JNull]);
  index arr i.

(** lines 136-146: the row of position [i] of the Open-Meteo shape *)
Definition hourly_row (city_name : string) (hourly times : json) (i : nat)
  : result row :=
  t ← index times i;
  pm10 ← hourly_value hourly "pm10" i;
  pm2_5 ← hourly_value hourly "pm2_5" i;
  carbon_monoxide ← hourly_value hourly "carbon_monoxide" i;
  nitrogen_dioxide ← hourly_value hourly "nitrogen_dioxide" i;
  sulphur_dioxide ← hourly_value hourly "sulphur_dioxide" i;
  ozone ← hourly_value hourly "ozone" i;
  has_uv ← contains hourly "uv_index";
  uv_index ← (if has_uv : bool then hourly_value hourly "uv_index" i else Ok JNull);
  Ok (<["uv_index" := uv_index]> (<["ozone" := ozone]>
      (<["sulphur_dioxide" := sulphur_dioxide]> (<["nitrogen_dioxide" := nitrogen_dioxide]>
      (<["carbon_monoxide" := carbon_monoxide]> (<["pm2_5" := pm2_5]>
      (<["pm10" := pm10]> (<["time" := t]> (<["city" := JStr city_name]> ∅))))))))).

(** lines 95-151: the rows one parsed document adds to [all_rows]; a
    document of neither shape is logged and adds none. *)
Definition document_rows (city_name : string) (raw : json) : result (list row) :=
  is_openaq ← contains raw "results";
  if is_openaq : bool then
    results ← getitem raw "results";
    stations ← iter results;
    rows ← for_each (station_rows city_name) stations;
    Ok (concat rows)
  else
    is_meteo ← contains raw "hourly";
    if is_meteo : bool then
      hourly ← getitem raw "hourly";
      times ← get hourly "time" (JArr []);
      n ← len times;
      for_each (hourly_row city_name hourly times) (range n)
    else Ok [].

(** lines 71-151: [all_rows] after the loop over the parsed files, each
    with the city name taken from its file name. *)
Definition collect_rows (docs : list (string * json)) : result (list row) :=
  rows ← for_each (fun d => document_rows d.1 d.2) docs;
  Ok (concat rows).

(** *** transform.py: features of a row of the frame

    After [pd.to_numeric(errors="coerce")] the six pollutant columns hold
    floats, missing readings being NaN. *)
Record readings : Type := {
  pm10 : float;
  pm2_5 : float;
  carbon_monoxide : float;
  nitrogen_dioxide : float;
  sulphur_dioxide : float;
  ozone : float
}.

Definition categorize_aqi (pm2_5 : float) : option string :=
  if isnan pm2_5 then None
  else if leb pm2_5 (of_Z 50) then Some "Good"
  else if leb pm2_5 (of_Z 100) then Some "Moderate"
  else if leb pm2_5 (of_Z 200) then Some "Unhealthy"
  else if leb pm2_5 (of_Z 300) then Some "Very Unhealthy"
  else Some "Hazardous".

Definition compute_severity (row : readings) : float :=
  add (add (add (add (add
    (mul (pm2_5 row) (of_Z 5))
    (mul (pm10 row) (of_Z 3)))
    (mul (nitrogen_dioxide row) (of_Z 4)))
    (mul (sulphur_dioxide row) (of_Z 4)))
    (mul (carbon_monoxide row) (of_Z 2)))
    (mul (ozone row) (of_Z 3)).

Definition classify_risk (severity : float) : string :=
  if gtb severity (of_Z 400) then "High Risk"
  else if gtb severity (of_Z 200) then "Moderate Risk"
  else "Low Risk".

(** lines 170-172 (and 169): the derived columns of one row *)
Record features : Type := {
  aqi_category : option string;
  severity_score : float;
  risk_flag : string
}.

Definition feature_engineering (row : readings) : features :=
  let severity := compute_severity row in
  {| aqi_category := categorize_aqi (pm2_5 row);
     severity_score := severity;
     risk_flag := classify_risk severity |}.

(** *** load.py *)

(** A cell of the staged frame; a [pd.Timestamp] is its nanoseconds
    since the epoch. *)
Inductive cell : Type :=
  | CNone
  | CInt (z : Z)
  | CFloat (x : float)
  | CStr (s : string)
  | CTimestamp (ns : Z)
  | CNaT.

Abbreviation record := (gmap string cell).

Inductive response : Type :=
  | RespData
  | RespNoData
  | RespRaises.

Inductive event : Type :=
  | Insert (batch_records : list (gmap string cell))
  | PrintNoData (attempt : nat)
  | PrintInsertFailed (attempt : nat)
  | Sleep (seconds : nat)
  | PrintInserting (batch_no rows : nat)
  | PrintBatchOk
  | PrintBatchFailed
  | PrintSummary (success_count fail_count : nat).

Definition BATCH_SIZE : nat := 200.

(** lines 49-51: [None] for a float that is NaN, any other value as it is. *)
Definition nan_to_none (v : cell) : cell :=
  match v with
  | CFloat FNaN => CNone
  | _ => v
  end.

Section Load.
(** [pd.Timestamp.isoformat] *)
Variable isoformat : Z -> string.

(** lines 45-57. [row.to_dict()] is the row as a dict. *)
Definition clean_record (row : record) : result record :=
  let record : record := nan_to_none <$> row in
  match record !! "time" with
  | None => Raise KeyError
  | Some (CTimestamp ns) => Ok (<["time" := CStr (isoformat ns)]> record)
  | Some _ => Ok record
  end.

(** The remote store: its answer to the call number [calls] (counted
    from 0 over the run) with the given payload. *)
Variable remote : nat -> list record -> response.

(** lines 64-77: [for attempt in range(retries + 1)], from the state
    where the remaining values of [attempt] are [attempts]. *)
Fixpoint insert_batch_loop (batch_records : list record) (attempts : list nat)
    (calls : nat) : bool * list event * nat :=
  match attempts with
  | [] => (false, [], calls)
  | attempt :: rest =>
      match remote calls batch_records with
      | RespData => (true, [Insert batch_records], S calls)
      | RespNoData =>
          let '(ok, tr, calls') := insert_batch_loop batch_records rest (S calls) in
          (ok, Insert batch_records :: PrintNoData (attempt + 1) :: Sleep 1 :: tr, calls')
      | RespRaises =>
          let '(ok, tr, calls') := insert_batch_loop batch_records rest (S calls) in
          (ok, Insert batch_records :: PrintInsertFailed (attempt + 1) :: Sleep 1 :: tr,
           calls')
      end
  end.

Definition insert_batch (batch_records : list record) (retries : nat) (calls : nat)
  : bool * list event * nat :=
  insert_batch_loop batch_records (range (retries + 1)) calls.

(** The state of the loop of [load_to_supabase]. *)
Record counts : Type := {
  success_count : nat;
  fail_count : nat;
  trace : list event;
  calls : nat
}.

(** lines 126-141: [for i in range(0, total_rows, BATCH_SIZE)], with the
    batch size and the retry budget as parameters. *)
Fixpoint load_batches (size retries : nat) (df : list record) (starts : list nat)
    (st : counts) : result counts :=
  match starts with
  | [] => Ok st
  | i :: rest =>
      let batch_df := slice df i (i + size) in
      batch_records ← for_each clean_record batch_df;
      let '(ok, tr, calls') := insert_batch batch_records retries (calls st) in
      let tr := trace st ++ PrintInserting (i / size + 1) (length batch_records) :: tr in
      load_batches size retries df rest
        (if ok : bool then
           {| success_count := success_count st + length batch_records;
              fail_count := fail_count st;
              trace := tr ++ [PrintBatchOk];
              calls := calls' |}
         else
           {| success_count := success_count st;
              fail_count := fail_count st + length batch_records;
              trace := tr ++ [PrintBatchFailed];
              calls := calls' |})
  end.

(** lines 122-150, from the frame whose [time] column line 120 parsed. *)
Definition load_with (size retries : nat) (df : list record)
  : result (nat * nat * list event) :=
  let total_rows := length df in
  starts ← range3 0 total_rows size;
  st ← load_batches size retries df starts
         {| success_count := 0; fail_count := 0; trace := []; calls := 0 |};
  Ok (success_count st, fail_count st,
      trace st ++ [PrintSummary (success_count st) (fail_count st)]).

(** [insert_batch] is called with its default [retries=2]. *)
Definition load_to_supabase (df : list record) : result (nat * nat * list event) :=
  load_with BATCH_SIZE 2 df.
End Load.

Definition inserts (tr : list event) : list (list record) :=
  omap (fun e => match e with Insert records => Some records | _ => None end) tr.

End AirQuality.

(** ** ETL_PIPELINE/scripts/etl_analysis.py: customer segments *)

Module ChurnAnalysis.

(** lines 53-61. A missing tenure reaches the function as NaN. *)
Definition categorize_customers (tenure : float) : string :=
  if ltb tenure (of_Z 12) then "New"
  else if leb (of_Z 12) tenure && ltb tenure (of_Z 36) then "Regular"
  else if leb (of_Z 36) tenure && ltb tenure (of_Z 60) then "Loyal"
  else "Champion".

(** line 83: [df["tenure"].apply(categorize_customers)] on a numeric column *)
Definition customer_segment (tenure : list float) : list string :=
  map categorize_customers tenure.

(** [col.value_counts().get(label, 0)] on a column of strings *)
Definition value_count (label : string) (col : list string) : nat :=
  length (List.filter (String.eqb label) col).

(** lines 98 and 123-126: the four segment rows of the summary *)
Record segment_summary : Type := {
  count_new_customers : nat;
  count_regular_customers : nat;
  count_loyal_customers : nat;
  count_champion_customers : nat
}.

Definition segment_counts (tenure : list float) : segment_summary :=
  let segment := customer_segment tenure in
  {| count_new_customers := value_count "New" segment;
     count_regular_customers := value_count "Regular" segment;
     count_loyal_customers := value_count "Loyal" segment;
     count_champion_customers := value_count "Champion" segment |}.

End ChurnAnalysis.

(** ** ETL_PIPELINE/scripts/validate.py: the checks on the loaded table *)

Module ChurnValidate.

Import Churn.

(** lines 82-90 *)
Definition expected_tenure_groups : gset string :=
  list_to_set ["0-12"; "12-24"; "24-48"; "48-60"; "60-72"; "72+"].

Definition expected_monthly_charge_segments : gset string :=
  list_to_set ["Low"; "Medium"; "High"].

(** [set(df[col].dropna().unique())], as far as its strings go: a cell
    that is no string is no expected label either. *)
Definition labels_present (col : list cell) : gset string :=
  list_to_set (omap (fun c => match c with CStr s => Some s | _ => None end) col).

(** lines 92-110; [None] is a table without the column. *)
Definition missing_tenure_groups (tenure_group : option (list cell)) : gset string :=
  expected_tenure_groups ∖ from_option labels_present ∅ tenure_group.

Definition missing_charge_segments (monthly_charge_segment : option (list cell))
  : gset string :=
  expected_monthly_charge_segments ∖ from_option labels_present ∅ monthly_charge_segment.

(** [c in {0, 1, 2}], numbers comparing by value *)
Definition is_legal_code (c : cell) : bool :=
  match as_float c with
  | Some x => eqb x (of_Z 0) || eqb x (of_Z 1) || eqb x (of_Z 2)
  | None => false
  end.

(** lines 115-121: the members of
    [set(df["contract_type_code"].dropna().unique()) - {0, 1, 2}], listed
    as often as they occur; the check at line 164 asks whether there is one. *)
Definition invalid_contract_codes (col : list cell) : list cell :=
  List.filter (fun c => negb (isna c) && negb (is_legal_code c)) col.

(** lines 65-69: the count of missing values of a required column *)
Definition missing_values (col : list cell) : nat :=
  length (List.filter isna col).

End ChurnValidate.

(** ** urban_air_pollutants/transform.py: from the rows to the frame *)

Module AirFrame.

Import AirQuality.

(** [pd.isna] of the value a row has in a column; a row without the key
    has NaN there. *)
Definition isna (v : option json) : bool :=
  match v with
  | None | Some JNull => true
  | Some _ => false
  end.

(** The columns of [pd.DataFrame(all_rows)]: the keys of all the rows. *)
Definition columns (rows : list row) : gset string := ⋃ (dom <$> rows).

(** lines 154-161: [df.dropna(subset=pollutant_cols, how="all")];
    [KeyError] when the frame lacks one of the columns. *)
Definition dropna_all (rows : list row) : result (list row) :=
  if bool_decide (Forall (fun p => p ∈ columns rows) pollutant_cols)
  then Ok (List.filter
             (fun r : row => negb (forallb (fun p => isna (r !! p)) pollutant_cols)) rows)
  else Raise KeyError.

(** Whether a row survives [dropna]. *)
Definition has_reading (r : row) : bool :=
  negb (forallb (fun p => isna (r !! p)) pollutant_cols).

(** The parameter names that lines 116-127 of [run_transform] test for. *)
Definition recognised_parameter (pollutant : json) : bool :=
  eq_str pollutant "pm10" || eq_str pollutant "pm25" || eq_str pollutant "pm2.5"
  || eq_str pollutant "co" || eq_str pollutant "no2" || eq_str pollutant "so2"
  || eq_str pollutant "o3".

(** A measurement with a recognised parameter and a value that is not null. *)
Definition usable_measurement (items : list (string * json)) : bool :=
  recognised_parameter (default JNull (obj_get items "parameter"))
  && negb (isna (Some (default JNull (obj_get items "value")))).

Section Numeric.
(** [pd.to_numeric(_, errors="coerce")] on one value; it gives NaN for [None]. *)
Variable to_numeric : json -> float.

Definition numeric (v : option json) : float :=
  match v with
  | Some x => to_numeric x
  | None => FNaN
  end.

(** line 164: the pollutant columns of a row after the conversion *)
Definition readings_of (r : row) : readings :=
  {| pm10 := numeric (r !! "pm10");
     pm2_5 := numeric (r !! "pm2_5");
     carbon_monoxide := numeric (r !! "carbon_monoxide");
     nitrogen_dioxide := numeric (r !! "nitrogen_dioxide");
     sulphur_dioxide := numeric (r !! "sulphur_dioxide");
     ozone := numeric (r !! "ozone") |}.
End Numeric.

End AirFrame.

(** ** What a trace of a loader shows *)

Module Observe.

(** Seconds slept by the churn loader. *)
Definition churn_sleep_seconds (tr : list Churn.event) : nat :=
  sum_list (omap (fun e => match e with Churn.Sleep s => Some s | _ => None end) tr).

(** Seconds slept by the air-quality loader. *)
Definition air_sleep_seconds (tr : list AirQuality.event) : nat :=
  sum_list (omap (fun e => match e with AirQuality.Sleep s => Some s | _ => None end) tr).

(** Batches the air-quality loader reported as inserted. *)
Definition air_batches_ok (tr : list AirQuality.event) : nat :=
  length (List.filter
            (fun e => match e with AirQuality.PrintBatchOk => true | _ => false end) tr).

End Observe.

(** ** Sample inputs *)

(** A raw frame of four customers; the second has the blank
    [TotalCharges] that the raw CSV carries for new customers. *)
Definition churn_sample : gmap string (list Churn.cell) :=
  list_to_map
    [("customerID", [Churn.CStr "a"; Churn.CStr "b"; Churn.CStr "c"; Churn.CStr "d"]);
     ("gender", [Churn.CStr "Female"; Churn.CStr "Male"; Churn.CStr "Male"; Churn.CStr "Female"]);
     ("tenure", [Churn.CInt 1; Churn.CInt 0; Churn.CInt 12; Churn.CInt 61]);
     ("MonthlyCharges",
       [Churn.CFloat (FFin 29); Churn.CFloat (FFin 30); Churn.CFloat (FFin 70);
        Churn.CFloat (FFin 69)]);
     ("TotalCharges", [Churn.CStr "10"; Churn.CStr " "; Churn.CStr "20"; Churn.CStr "30"]);
     ("InternetService",
       [Churn.CStr "DSL"; Churn.CStr "No"; Churn.CStr "Fiber optic"; Churn.CStr "Cable"]);
     ("MultipleLines",
       [Churn.CStr "Yes"; Churn.CStr "No"; Churn.CStr "No phone service"; Churn.CStr "Maybe"]);
     ("Contract",
       [Churn.CStr "Month-to-month"; Churn.CStr "One year"; Churn.CStr "Two year";
        Churn.CStr "Weekly"])].

Definition parse_sample (s : string) : option Q :=
  if String.eqb s "10" then Some 10%Q
  else if String.eqb s "20" then Some 20%Q
  else if String.eqb s "30" then Some 30%Q
  else None.

(** The frame the transform returns for [churn_sample]. *)
Definition churn_sample_out : gmap string (list Churn.cell) :=
  match Churn.transform_data parse_sample churn_sample with
  | Ok out => out
  | Raise _ => ∅
  end.

(** A row of the staged air-quality frame and the record it is sent as. *)
Definition sample_isoformat (ns : Z) : string := "1970-01-01T00:00:00".

Definition staged_row : gmap string AirQuality.cell :=
  list_to_map
    [("city", AirQuality.CStr "Delhi"); ("time", AirQuality.CTimestamp 0);
     ("pm10", AirQuality.CFloat FNaN); ("pm2_5", AirQuality.CFloat (FFin 80));
     ("aqi_category", AirQuality.CStr "Moderate"); ("hour", AirQuality.CInt 0)].

Definition cleaned_row : gmap string AirQuality.cell :=
  list_to_map
    [("city", AirQuality.CStr "Delhi"); ("time", AirQuality.CStr "1970-01-01T00:00:00");
     ("pm10", AirQuality.CNone); ("pm2_5", AirQuality.CFloat (FFin 80));
     ("aqi_category", AirQuality.CStr "Moderate"); ("hour", AirQuality.CInt 0)].

(** A store that fails on the calls whose numbers are listed. *)
Definition air_fails_on (failing : list nat) (calls : nat)
    (batch : list (gmap string AirQuality.cell)) : AirQuality.response :=
  if bool_decide (calls ∈ failing) then AirQuality.RespRaises else AirQuality.RespData.

Definition churn_fails_on (failing : list nat) (calls : nat)
    (records : list (gmap string Churn.cell)) : Churn.response :=
  if bool_decide (calls ∈ failing) then Churn.RespError else Churn.RespOk.

(** [n] rows with a [time] cell and their number in [hour]. *)
Definition staged_rows (n : nat) : list (gmap string AirQuality.cell) :=
  map (fun i => <["hour" := AirQuality.CInt (Z.of_nat i)]> {["time" := AirQuality.CNaT]})
      (seq 0 n).

(** The row [run_transform] builds for a PM2.5 measurement of 88. *)
Definition pm25_measurement : list (string * AirQuality.json) :=
  [("parameter", AirQuality.JStr "pm25"); ("value", AirQuality.JNum 88);
   ("lastUpdated", AirQuality.JStr "2024-01-01T00:00:00Z")].

Definition pm25_row : gmap string AirQuality.json :=
  <["pm2_5" := AirQuality.JNum 88]>
    (list_to_map
       [("city", AirQuality.JStr "Delhi"); ("time", AirQuality.JStr "2024-01-01T00:00:00Z");
        ("pm10", AirQuality.JNull); ("pm2_5", AirQuality.JNull);
        ("carbon_monoxide", AirQuality.JNull); ("nitrogen_dioxide", AirQuality.JNull);
        ("sulphur_dioxide", AirQuality.JNull); ("ozone", AirQuality.JNull);
        ("uv_index", AirQuality.JNull)]).

(** A conversion to numbers for the samples: numbers as they are, all else NaN. *)
Definition sample_to_numeric (v : AirQuality.json) : float :=
  match v with
  | AirQuality.JNum q => FFin q
  | _ => FNaN
  end.

(** The [hourly] object of a two-hour Open-Meteo document without UV index. *)
Definition two_hours : list AirQuality.json :=
  [AirQuality.JStr "2024-01-01T00:00"; AirQuality.JStr "2024-01-01T01:00"].

Definition two_hour_items : list (string * AirQuality.json) :=
  ("time", AirQuality.JArr two_hours)
    :: map (fun k => (k, AirQuality.JArr [AirQuality.JNum 7; AirQuality.JNum 9]))
         AirQuality.pollutant_cols.

(** An Open-Meteo document of [n] hours; [keys] are the arrays it carries. *)
Definition hourly_doc (n : nat) (keys : list string) : AirQuality.json :=
  AirQuality.JObj
    [("latitude", AirQuality.JNum 28);
     ("hourly",
       AirQuality.JObj
         (("time", AirQuality.JArr (map (fun _ => AirQuality.JStr "2024-01-01T00:00") (seq 0 n)))
            :: map (fun k => (k, AirQuality.JArr (repeat (AirQuality.JNum 7) n))) keys))].

(** An OpenAQ document: one station with a PM2.5 and an ozone measurement. *)
Definition openaq_doc : AirQuality.json :=
  AirQuality.JObj
    [("results",
       AirQuality.JArr
         [AirQuality.JObj
            [("location", AirQuality.JStr "ITO");
             ("measurements",
               AirQuality.JArr
                 [AirQuality.JObj
                    [("parameter", AirQuality.JStr "pm25");
                     ("value", AirQuality.JNum 88);
                     ("lastUpdated", AirQuality.JStr "2024-01-01T00:00:00Z")];
                  AirQuality.JObj
                    [("parameter", AirQuality.JStr "o3");
                     ("value", AirQuality.JNum 12);
                     ("lastUpdated", AirQuality.JStr "2024-01-01T00:00:00Z")]])]])].

(** * Properties *)

(** ** Batching *)

Section BatchFacts.
Context {A : Type}.
Implicit Types (df : list A) (size n j : nat).

Lemma chunk_at_take df size i :
  Batch.chunk_at df size i = take size (drop i df).
Proof. unfold Batch.chunk_at, slice. f_equal. lia. Qed.

Lemma range_len_zero stop size : 0 < size ->
  size * range_len 0 stop size < stop + size /\ stop <= size * range_len 0 stop size.
Proof.
  intros Hs. unfold range_len. rewrite Nat.sub_0_r.
  pose proof (Nat.div_mod_eq (stop + (size - 1)) size) as E.
  pose proof (Nat.mod_upper_bound (stop + (size - 1)) size ltac:(lia)) as U.
  split; lia.
Qed.

Lemma concat_chunks df size n j :
  concat (map (fun k => take size (drop (j + k * size) df)) (seq 0 n))
  = take (n * size) (drop j df).
Proof.
  revert j. induction n as [|n IH]; intros j.
  - reflexivity.
  - cbn [seq map concat]. rewrite <- seq_shift, map_map.
    rewrite (map_ext _ (fun k => take size (drop ((j + size) + k * size) df))).
    2:{ intros k. do 2 f_equal. lia. }
    rewrite IH. rewrite Nat.mul_0_l, Nat.add_0_r.
    replace (S n * size) with (size + n * size) by lia.
    rewrite <- take_take_drop. rewrite drop_drop. reflexivity.
Qed.

Lemma batches_eq df size : 0 < size ->
  Batch.batches df size
  = Ok (map (fun k => take size (drop (k * size) df))
            (seq 0 (range_len 0 (length df) size))).
Proof.
  intros Hs. unfold Batch.batches, Batch.starts, range3.
  destruct size as [|s]; [lia|]. cbn [mbind result_bind].
  rewrite map_map. f_equal. apply map_ext. intros k.
  rewrite chunk_at_take. reflexivity.
Qed.

Lemma batches_concat df size chunks :
  Batch.batches df size = Ok chunks -> concat chunks = df.
Proof.
  destruct (Nat.eq_dec size 0) as [->|Hs]; [discriminate|].
  rewrite batches_eq by lia. intros [= <-].
  pose proof (concat_chunks df size (range_len 0 (length df) size) 0) as E.
  cbn [Nat.add drop] in E. rewrite E.
  apply firstn_all2. pose proof (range_len_zero (length df) size). lia.
Qed.

Lemma batches_lookup df size chunks k c : 0 < size ->
  Batch.batches df size = Ok chunks -> chunks !! k = Some c ->
  c = take size (drop (k * size) df) /\ k * size < length df.
Proof.
  intros Hs. rewrite batches_eq by lia. intros [= <-] Hk.
  rewrite list_lookup_fmap in Hk.
  destruct (seq 0 (range_len 0 (length df) size) !! k) as [k'|] eqn:E; [|discriminate].
  apply lookup_seq in E as [-> Hlt]. cbn in Hk. injection Hk as <-.
  split; [reflexivity|].
  pose proof (range_len_zero (length df) size Hs). nia.
Qed.

Lemma batches_length df size chunks :
  Batch.batches df size = Ok chunks ->
  length chunks = range_len 0 (length df) size.
Proof.
  destruct (Nat.eq_dec size 0) as [->|Hs]; [discriminate|].
  rewrite batches_eq by lia. intros [= <-].
  rewrite length_map, length_seq. reflexivity.
Qed.
End BatchFacts.

(** C4. Batching a frame with a positive size and concatenating the chunks
    in order gives the frame back; every chunk but the last has exactly
    [size] rows and the last has between 1 and [size]. *)
Theorem batches_partition {A : Type} (df : list A) (size : nat) :
  0 < size ->
  exists chunks,
    Batch.batches df size = Ok chunks /\
    concat chunks = df /\
    (forall k c, chunks !! k = Some c -> S k < length chunks -> length c = size) /\
    (forall c, last chunks = Some c -> 1 <= length c <= size).
Proof.
  intros Hs.
  destruct (Batch.batches df size) as [chunks|e] eqn:E.
  2:{ rewrite batches_eq in E by lia. discriminate. }
  exists chunks. split; [reflexivity|]. split; [eapply batches_concat; eauto|].
  pose proof (batches_length _ _ _ E) as Hlen.
  pose proof (range_len_zero (length df) size Hs) as [Hup Hlo].
  split.
  - intros k c Hk Hlast.
    destruct (batches_lookup _ _ _ _ _ Hs E Hk) as [-> _].
    rewrite length_take, length_drop. nia.
  - intros c Hc. rewrite last_lookup in Hc.
    destruct (batches_lookup _ _ _ _ _ Hs E Hc) as [-> Hlt].
    rewrite length_take, length_drop.
    assert (0 < length chunks) by (apply lookup_lt_Some in Hc; lia).
    split; [|lia]. nia.
Qed.

Lemma batches_partition_witness :
  exists chunks,
    Batch.batches [1; 2; 3; 4; 5] 2 = Ok chunks /\
    concat chunks = [1; 2; 3; 4; 5] /\
    (forall k c, chunks !! k = Some c -> S k < length chunks -> length c = 2) /\
    (forall c, last chunks = Some c -> 1 <= length c <= 2).
Proof. apply (batches_partition [1; 2; 3; 4; 5] 2). lia. Defined.

Example batches_five_by_two :
  Batch.batches [1; 2; 3; 4; 5] 2 = Ok [[1; 2]; [3; 4]; [5]].
Proof. reflexivity. Qed.

Example batches_size_zero : Batch.batches [1; 2; 3] 0 = Raise ValueError.
Proof. reflexivity. Qed.

(** ** Retrying one chunk *)

Section AirRetry.
Import AirQuality.
Variable remote : nat -> list (gmap string cell) -> response.
Variable batch : list (gmap string cell).

Lemma air_inserts_cons e tr :
  inserts (e :: tr)
  = match e with Insert r => r :: inserts tr | _ => inserts tr end.
Proof. destruct e; reflexivity. Qed.

Lemma insert_batch_loop_exhausted attempts calls :
  (forall k, k < length attempts -> remote (calls + k) batch <> RespData) ->
  exists tr,
    insert_batch_loop remote batch attempts calls
      = (false, tr, calls + length attempts) /\
    inserts tr = repeat batch (length attempts).
Proof.
  revert calls. induction attempts as [|attempt rest IH]; intros calls Hfail.
  - exists []. cbn. rewrite Nat.add_0_r. split; reflexivity.
  - destruct (IH (S calls)) as (tr & E & Hins).
    { intros k Hk. replace (S calls + k) with (calls + S k) by lia.
      apply Hfail. cbn. lia. }
    pose proof (Hfail 0 ltac:(cbn; lia)) as H0. rewrite Nat.add_0_r in H0.
    cbn [insert_batch_loop length]. rewrite E.
    replace (calls + S (length rest)) with (S calls + length rest) by lia.
    destruct (remote calls batch); [congruence| |]; eexists; (split; [reflexivity|]);
      rewrite !air_inserts_cons; cbv iota; rewrite Hins; reflexivity.
Qed.

Lemma insert_batch_loop_succeeds attempts calls n :
  n < length attempts ->
  (forall k, k < n -> remote (calls + k) batch <> RespData) ->
  remote (calls + n) batch = RespData ->
  exists tr,
    insert_batch_loop remote batch attempts calls = (true, tr, calls + S n) /\
    inserts tr = repeat batch (S n).
Proof.
  revert calls n. induction attempts as [|attempt rest IH]; intros calls n Hn Hfail Hok.
  - cbn in Hn. lia.
  - destruct n as [|n].
    + rewrite Nat.add_0_r in Hok. cbn [insert_batch_loop]. rewrite Hok.
      eexists. split; [f_equal; lia|reflexivity].
    + destruct (IH (S calls) n) as (tr & E & Hins).
      { cbn in Hn. lia. }
      { intros k Hk. replace (S calls + k) with (calls + S k) by lia.
        apply Hfail. lia. }
      { replace (S calls + n) with (calls + S n) by lia. exact Hok. }
      pose proof (Hfail 0 ltac:(lia)) as H0. rewrite Nat.add_0_r in H0.
      cbn [insert_batch_loop]. rewrite E.
      replace (calls + S (S n)) with (S calls + S n) by lia.
      destruct (remote calls batch); [congruence| |]; eexists; (split; [reflexivity|]);
        rewrite !air_inserts_cons; cbv iota; rewrite Hins; reflexivity.
Qed.
End AirRetry.

Section ChurnRetry.
Import Churn.
Variable remote : nat -> list (gmap string cell) -> response.
Variables (size budget total start : nat).
Variable records : list (gmap string cell).

Lemma churn_inserts_cons e tr :
  inserts (e :: tr)
  = match e with Insert r => r :: inserts tr | _ => inserts tr end.
Proof. destruct e; reflexivity. Qed.

Lemma retry_loop_exhausted m j calls :
  j + m = budget -> 0 < m ->
  (forall k, k < m -> remote (calls + k) records <> RespOk) ->
  exists tr,
    retry_loop remote size budget total start records (seq j m) calls
      = (tr, calls + m) /\
    inserts tr = repeat records m /\
    last tr = Some PrintFailedSkipping.
Proof.
  revert j calls. induction m as [|m IH]; intros j calls Hj Hm Hfail; [lia|].
  pose proof (Hfail 0 ltac:(lia)) as H0. rewrite Nat.add_0_r in H0.
  cbn [seq retry_loop].
  destruct (Nat.ltb_spec j (budget - 1)) as [Hlt|Hge].
  - destruct (IH (S j) (S calls)) as (tr & E & Hins & Hlast); [lia|lia| |].
    { intros k Hk. replace (S calls + k) with (calls + S k) by lia.
      apply Hfail. lia. }
    rewrite E. replace (calls + S m) with (S calls + m) by lia.
    destruct (remote calls records); [congruence| |];
      (eexists; split; [reflexivity|]; split;
       [rewrite !churn_inserts_cons; cbv iota; rewrite Hins; reflexivity|]);
      destruct tr; [discriminate|exact Hlast|discriminate|exact Hlast].
  - assert (m = 0) as -> by lia.
    destruct (remote calls records); [congruence| |];
      (eexists; split; [f_equal; lia|]; split; reflexivity).
Qed.

Lemma retry_loop_succeeds m j calls n :
  j + m = budget -> n < m ->
  (forall k, k < n -> remote (calls + k) records <> RespOk) ->
  remote (calls + n) records = RespOk ->
  exists tr,
    retry_loop remote size budget total start records (seq j m) calls
      = (tr, calls + S n) /\
    inserts tr = repeat records (S n) /\
    last tr = Some (PrintInserted (start + 1) (Nat.min (start + size) total) total).
Proof.
  revert j calls n. induction m as [|m IH]; intros j calls n Hj Hn Hfail Hok; [lia|].
  cbn [seq retry_loop]. destruct n as [|n].
  - rewrite Nat.add_0_r in Hok. rewrite Hok.
    eexists. split; [f_equal; lia|]. split; reflexivity.
  - pose proof (Hfail 0 ltac:(lia)) as H0. rewrite Nat.add_0_r in H0.
    destruct (IH (S j) (S calls) n) as (tr & E & Hins & Hlast); [lia|lia| | |].
    { intros k Hk. replace (S calls + k) with (calls + S k) by lia.
      apply Hfail. lia. }
    { replace (S calls + n) with (calls + S n) by lia. exact Hok. }
    destruct (Nat.ltb_spec j (budget - 1)) as [Hlt|Hge]; [|lia].
    rewrite E. replace (calls + S (S n)) with (S calls + S n) by lia.
    destruct (remote calls records); [congruence| |];
      (eexists; split; [reflexivity|]; split;
       [rewrite !churn_inserts_cons; cbv iota; rewrite Hins; reflexivity|]);
      destruct tr; [discriminate|exact Hlast|discriminate|exact Hlast].
Qed.
End ChurnRetry.

(** C1, as the two loaders have it. The air-quality loader tries a chunk
    [retries + 1] times; the churn loader tries it [max_retries] times,
    its [max_retries] being a budget of attempts. With a store that always
    fails the whole budget is spent and the chunk is given up; with a
    store that first succeeds on attempt [N] within the budget exactly [N]
    inserts are sent and the chunk succeeds. *)
Theorem retry_attempts :
  (forall remote batch retries calls,
      (forall k, k < retries + 1 -> remote (calls + k) batch <> AirQuality.RespData) ->
      exists tr,
        AirQuality.insert_batch remote batch retries calls
          = (false, tr, calls + (retries + 1)) /\
        AirQuality.inserts tr = repeat batch (retries + 1)) /\
  (forall remote batch retries calls N,
      1 <= N <= retries + 1 ->
      (forall k, k < N - 1 -> remote (calls + k) batch <> AirQuality.RespData) ->
      remote (calls + (N - 1)) batch = AirQuality.RespData ->
      exists tr,
        AirQuality.insert_batch remote batch retries calls = (true, tr, calls + N) /\
        AirQuality.inserts tr = repeat batch N) /\
  (forall remote size budget total start records calls,
      0 < budget ->
      (forall k, k < budget -> remote (calls + k) records <> Churn.RespOk) ->
      exists tr,
        Churn.retry_loop remote size budget total start records (range budget) calls
          = (tr, calls + budget) /\
        Churn.inserts tr = repeat records budget /\
        last tr = Some Churn.PrintFailedSkipping) /\
  (forall remote size budget total start records calls N,
      1 <= N <= budget ->
      (forall k, k < N - 1 -> remote (calls + k) records <> Churn.RespOk) ->
      remote (calls + (N - 1)) records = Churn.RespOk ->
      exists tr,
        Churn.retry_loop remote size budget total start records (range budget) calls
          = (tr, calls + N) /\
        Churn.inserts tr = repeat records N /\
        last tr
          = Some (Churn.PrintInserted (start + 1) (Nat.min (start + size) total) total)).
Proof.
  repeat split.
  - intros remote batch retries calls Hfail.
    unfold AirQuality.insert_batch, range.
    destruct (insert_batch_loop_exhausted remote batch (seq 0 (retries + 1)) calls)
      as (tr & E & Hins).
    { rewrite length_seq. exact Hfail. }
    rewrite length_seq in E, Hins. eauto.
  - intros remote batch retries calls N HN Hfail Hok.
    unfold AirQuality.insert_batch, range.
    destruct (insert_batch_loop_succeeds remote batch (seq 0 (retries + 1)) calls (N - 1))
      as (tr & E & Hins); [rewrite length_seq; lia|exact Hfail|exact Hok|].
    replace (S (N - 1)) with N in E, Hins by lia. eauto.
  - intros remote size budget total start records calls Hb Hfail.
    apply retry_loop_exhausted; [lia|exact Hb|exact Hfail].
  - intros remote size budget total start records calls N HN Hfail Hok.
    destruct (retry_loop_succeeds remote size budget total start records
                budget 0 calls (N - 1)) as (tr & E & Hins & Hlast);
      [lia|lia|exact Hfail|exact Hok|].
    replace (S (N - 1)) with N in E, Hins by lia. eauto.
Qed.

Lemma retry_attempts_witness :
  (exists tr,
      AirQuality.insert_batch (fun _ _ => AirQuality.RespRaises) [] 2 0
        = (false, tr, 0 + (2 + 1)) /\
      AirQuality.inserts tr = repeat [] (2 + 1)) /\
  (exists tr,
      AirQuality.insert_batch
        (fun calls _ => if calls =? 1 then AirQuality.RespData else AirQuality.RespNoData)
        [] 2 0 = (true, tr, 0 + 2) /\
      AirQuality.inserts tr = repeat [] 2) /\
  (exists tr,
      Churn.retry_loop (fun _ _ => Churn.RespError) 200 3 450 200 [] (range 3) 0
        = (tr, 0 + 3) /\
      Churn.inserts tr = repeat [] 3 /\
      last tr = Some Churn.PrintFailedSkipping) /\
  (exists tr,
      Churn.retry_loop
        (fun calls _ => if calls =? 1 then Churn.RespOk else Churn.RespRaises)
        200 3 450 200 [] (range 3) 0 = (tr, 0 + 2) /\
      Churn.inserts tr = repeat [] 2 /\
      last tr = Some (Churn.PrintInserted (200 + 1) (Nat.min (200 + 200) 450) 450)).
Proof.
  destruct retry_attempts as (Hair_fail & Hair_ok & Hchurn_fail & Hchurn_ok).
  split; [|split; [|split]].
  - apply Hair_fail. intros k _. discriminate.
  - apply Hair_ok; [lia| |reflexivity].
    intros k Hk. assert (k = 0) as -> by lia. discriminate.
  - apply Hchurn_fail; [lia|]. intros k _. discriminate.
  - apply Hchurn_ok; [lia| |reflexivity].
    intros k Hk. assert (k = 0) as -> by lia. discriminate.
Defined.

(** The churn loader does not reach [max_retries + 1] attempts: with its
    [max_retries = 3] and a store that always raises, three inserts are
    sent and the batch is skipped. *)
Lemma retry_attempts_counterexample :
  ~ (forall (remote : nat -> list (gmap string Churn.cell) -> Churn.response) records,
        (forall k, remote k records <> Churn.RespOk) ->
        length (Churn.inserts
                  (Churn.retry_loop remote Churn.batch_size Churn.max_retries 1 0
                     records (range Churn.max_retries) 0).1)
        = Churn.max_retries + 1).
Proof.
  intros H.
  specialize (H (fun _ _ => Churn.RespRaises) [] ltac:(intros k; discriminate)).
  vm_compute in H. discriminate.
Qed.

Example churn_three_failures :
  Churn.retry_loop (fun _ _ => Churn.RespRaises) 200 3 1 0 [] (range 3) 0
  = ([Churn.Insert []; Churn.PrintError 1; Churn.PrintRetrying 1 3; Churn.Sleep 2;
      Churn.Insert []; Churn.PrintError 1; Churn.PrintRetrying 2 3; Churn.Sleep 2;
      Churn.Insert []; Churn.PrintError 1; Churn.PrintFailedSkipping], 3).
Proof. reflexivity. Qed.

(** A store that would succeed on the fourth call is never asked a fourth time. *)
Example churn_fourth_attempt_never_made :
  Churn.inserts
    (Churn.retry_loop (fun calls _ => if calls =? 3 then Churn.RespOk else Churn.RespRaises)
       200 3 1 0 [] (range 3) 0).1
  = [[]; []; []].
Proof. reflexivity. Qed.

(** ** Runs of the loaders over all chunks *)

Lemma for_each_Forall2 {A B : Type} (f : A -> result B) xs ys :
  for_each f xs = Ok ys <-> Forall2 (fun x y => f x = Ok y) xs ys.
Proof.
  revert ys. induction xs as [|x xs IH]; intros ys; cbn [for_each].
  - split.
    + intros [= <-]. constructor.
    + intros H. inversion H. reflexivity.
  - split.
    + destruct (f x) as [b|e] eqn:Ex; cbn; [|discriminate].
      destruct (for_each f xs) as [bs|e] eqn:Exs; cbn; [|discriminate].
      intros [= <-]. constructor; [exact Ex|]. apply IH. reflexivity.
    + intros H. inversion H as [|x' y' xs' ys' Hx Hxs]; subst.
      rewrite Hx. cbn. apply IH in Hxs. rewrite Hxs. reflexivity.
Qed.

Lemma for_each_slice {A B : Type} (f : A -> result B) xs ys i j :
  for_each f xs = Ok ys -> for_each f (slice xs i j) = Ok (slice ys i j).
Proof.
  rewrite !for_each_Forall2. intros H. unfold slice.
  apply Forall2_take, Forall2_drop, H.
Qed.

Lemma for_each_length {A B : Type} (f : A -> result B) xs ys :
  for_each f xs = Ok ys -> length ys = length xs.
Proof. rewrite for_each_Forall2. intros H. symmetry. eapply Forall2_length, H. Qed.

Lemma slice_chunk {A : Type} (xs : list A) size k :
  slice xs (0 + k * size) (0 + k * size + size) = take size (drop (k * size) xs).
Proof. unfold slice. f_equal. lia. Qed.

Section AirRun.
Import AirQuality.
Variable isoformat : Z -> string.
Variable remote : nat -> list (gmap string cell) -> response.
Variables (size retries : nat).

Lemma clean_record_returns (row : gmap string cell) :
  is_Some (row !! "time") -> returns (clean_record isoformat row).
Proof.
  intros [c Hc]. unfold clean_record. rewrite lookup_fmap, Hc. cbn.
  destruct c as [| | [] | | |]; exact I.
Qed.

Lemma inserts_app tr1 tr2 : inserts (tr1 ++ tr2) = inserts tr1 ++ inserts tr2.
Proof. unfold inserts. apply omap_app. Qed.

Lemma insert_batch_loop_inserts batch attempts calls :
  exists m,
    inserts (insert_batch_loop remote batch attempts calls).1.2 = repeat batch m /\
    m <= length attempts /\ (attempts <> [] -> 1 <= m).
Proof.
  revert calls. induction attempts as [|attempt rest IH]; intros calls.
  - exists 0. cbn. split; [reflexivity|]. split; [lia|congruence].
  - cbn [insert_batch_loop]. destruct (IH (S calls)) as (m & Hins & Hm & _).
    destruct (insert_batch_loop remote batch rest (S calls)) as [[ok tr] calls'].
    cbn [fst snd] in Hins.
    destruct (remote calls batch).
    + exists 1. cbn. split; [reflexivity|]. split; lia.
    + exists (S m). cbn [fst snd]. rewrite !air_inserts_cons. cbv iota.
      rewrite Hins. cbn. split; [reflexivity|]. split; lia.
    + exists (S m). cbn [fst snd]. rewrite !air_inserts_cons. cbv iota.
      rewrite Hins. cbn. split; [reflexivity|]. split; lia.
Qed.

Variables (df cdf : list (gmap string cell)).
Hypothesis Hclean : for_each (clean_record isoformat) df = Ok cdf.

Local Abbreviation chunk := (fun k : nat => take size (drop (k * size) cdf)).

Lemma air_load_batches_run n j st :
  exists st' attempts,
    load_batches isoformat remote size retries df
      (map (fun k => 0 + k * size) (seq j n)) st = Ok st' /\
    length attempts = n /\
    Forall (fun m => 1 <= m <= retries + 1) attempts /\
    inserts (trace st')
      = inserts (trace st)
        ++ concat (zip_with (fun c m => repeat c m) (map chunk (seq j n)) attempts) /\
    success_count st' + fail_count st'
      = success_count st + fail_count st + length (concat (map chunk (seq j n))) /\
    exists tr', trace st' = trace st ++ tr'.
Proof.
  revert j st. induction n as [|n IH]; intros j st.
  - exists st, []. cbn. rewrite !app_nil_r.
    repeat split; [constructor|lia|]. exists []. rewrite app_nil_r. reflexivity.
  - cbn [seq map load_batches].
    rewrite (for_each_slice _ _ _ _ _ Hclean). cbn [mbind result_bind].
    rewrite slice_chunk.
    destruct (insert_batch_loop_inserts (chunk j) (range (retries + 1)) (calls st))
      as (m & Hins & Hm & Hpos).
    unfold insert_batch.
    destruct (insert_batch_loop remote (chunk j) (range (retries + 1)) (calls st))
      as [[ok tr] calls'].
    cbn [fst snd] in Hins.
    unfold range in Hm, Hpos. rewrite length_seq in Hm.
    assert (1 <= m) as Hm1.
    { apply Hpos. replace (retries + 1) with (S retries) by lia. discriminate. }
    match goal with
    | |- context [load_batches _ _ _ _ _ _ ?s] => destruct (IH (S j) s)
          as (st' & attempts & E & Hlen & Hall & Hins' & Hsum & tr' & Htr)
    end.
    exists st', (m :: attempts). rewrite E.
    split; [reflexivity|]. split; [cbn; lia|]. split; [constructor; [lia|exact Hall]|].
    cbn [zip_with concat]. rewrite length_app.
    destruct ok; cbn [trace success_count fail_count] in *.
    + rewrite Hins', !inserts_app, air_inserts_cons, Hins. cbn.
      rewrite app_nil_r, <- app_assoc. split; [reflexivity|]. split; [lia|].
      eexists. rewrite Htr, <- !app_assoc. reflexivity.
    + rewrite Hins', !inserts_app, air_inserts_cons, Hins. cbn.
      rewrite app_nil_r, <- app_assoc. split; [reflexivity|]. split; [lia|].
      eexists. rewrite Htr, <- !app_assoc. reflexivity.
Qed.
End AirRun.

Section ChurnRun.
Import Churn.
Variable remote : nat -> list (gmap string cell) -> response.
Variables (size budget total : nat).
Variable df : list (gmap string cell).

Lemma churn_inserts_app tr1 tr2 : inserts (tr1 ++ tr2) = inserts tr1 ++ inserts tr2.
Proof. unfold inserts. apply omap_app. Qed.


Local Abbreviation chunk := (fun k : nat => take size (drop (k * size) df)).

End ChurnRun.

Lemma range3_pos start stop step :
  0 < step ->
  range3 start stop step
  = Ok (map (fun k => start + k * step) (seq 0 (range_len start stop step))).
Proof. destruct step; [lia|reflexivity]. Qed.

Lemma for_each_returns {A B : Type} (f : A -> result B) xs :
  Forall (fun x => returns (f x)) xs -> exists ys, for_each f xs = Ok ys.
Proof.
  induction 1 as [|x xs Hx _ [ys IH]].
  - exists []. reflexivity.
  - cbn [for_each]. destruct (f x) as [y|e]; [|destruct Hx].
    exists (y :: ys). rewrite IH. reflexivity.
Qed.

Lemma air_load_with_run isoformat remote size retries df :
  0 < size ->
  Forall (fun r : gmap string AirQuality.cell => is_Some (r !! "time")) df ->
  exists cdf chunks attempts s f tr,
    for_each (AirQuality.clean_record isoformat) df = Ok cdf /\
    Batch.batches cdf size = Ok chunks /\
    AirQuality.load_with isoformat remote size retries df = Ok (s, f, tr) /\
    length attempts = length chunks /\
    Forall (fun m => 1 <= m <= retries + 1) attempts /\
    AirQuality.inserts tr = concat (zip_with (fun c m => repeat c m) chunks attempts) /\
    s + f = length df /\
    last tr = Some (AirQuality.PrintSummary s f).
Proof.
  intros Hs Htime.
  destruct (for_each_returns (AirQuality.clean_record isoformat) df) as [cdf Hclean].
  { eapply Forall_impl; [exact Htime|]. intros r. apply clean_record_returns. }
  pose proof (for_each_length _ _ _ Hclean) as Hlen.
  destruct (air_load_batches_run isoformat remote size retries df cdf Hclean
              (range_len 0 (length df) size) 0
              {| AirQuality.success_count := 0; AirQuality.fail_count := 0;
                 AirQuality.trace := []; AirQuality.calls := 0 |})
    as (st' & attempts & E & Hatt & Hall & Hins & Hsum & _).
  exists cdf,
    (map (fun k => take size (drop (k * size) cdf)) (seq 0 (range_len 0 (length df) size))),
    attempts, (AirQuality.success_count st'), (AirQuality.fail_count st'),
    (AirQuality.trace st'
       ++ [AirQuality.PrintSummary (AirQuality.success_count st')
             (AirQuality.fail_count st')]).
  split; [exact Hclean|]. split; [rewrite batches_eq by lia; rewrite Hlen; reflexivity|].
  unfold AirQuality.load_with. rewrite range3_pos by exact Hs.
  cbn [mbind result_bind]. rewrite E. cbn [mbind result_bind AirQuality.trace] in *.
  split; [reflexivity|]. split; [rewrite length_map, length_seq; exact Hatt|].
  split; [exact Hall|]. split.
  - rewrite (inserts_app _ [_]), Hins. cbn. rewrite app_nil_r. reflexivity.
  - split; [|apply last_snoc].
    rewrite Hsum. cbn.
    pose proof (concat_chunks cdf size (range_len 0 (length df) size) 0) as C.
    cbn [Nat.add] in C. rewrite C, drop_0. rewrite firstn_all2; [lia|].
    pose proof (range_len_zero (length df) size Hs). lia.
Qed.


(** C6. The air-quality loader returns counts that add up to the rows of
    the frame, whatever the remote store answers: each chunk adds its rows
    to exactly one of [success_count] and [fail_count]. The frame has the
    [time] column that line 120 has just parsed. *)
Theorem load_report_totals isoformat remote (df : list (gmap string AirQuality.cell)) :
  Forall (fun r => is_Some (r !! "time")) df ->
  exists s f tr,
    AirQuality.load_to_supabase isoformat remote df = Ok (s, f, tr) /\
    s + f = length df /\
    last tr = Some (AirQuality.PrintSummary s f).
Proof.
  intros Htime.
  destruct (air_load_with_run isoformat remote AirQuality.BATCH_SIZE 2 df)
    as (cdf & chunks & attempts & s & f & tr & _ & _ & E & _ & _ & _ & Hsum & Hlast);
    [unfold AirQuality.BATCH_SIZE; lia|exact Htime|].
  exists s, f, tr. split; [exact E|]. split; [exact Hsum|exact Hlast].
Qed.

Lemma load_report_totals_witness :
  exists s f tr,
    AirQuality.load_to_supabase (fun _ => "2024-01-01T00:00:00")
      (fun calls _ => if calls =? 0 then AirQuality.RespRaises else AirQuality.RespData)
      [ {[ "time" := AirQuality.CTimestamp 0 ]}; {[ "time" := AirQuality.CNaT ]} ]
      = Ok (s, f, tr) /\
    s + f = 2 /\
    last tr = Some (AirQuality.PrintSummary s f).
Proof.
  apply (load_report_totals (fun _ => "2024-01-01T00:00:00")
           (fun calls _ => if calls =? 0 then AirQuality.RespRaises else AirQuality.RespData)
           [ {[ "time" := AirQuality.CTimestamp 0 ]}; {[ "time" := AirQuality.CNaT ]} ]).
  repeat constructor; eexists; apply lookup_singleton_eq.
Defined.



(** ** The churn transform *)

Lemma fillna_lookup value (col : list Churn.cell) i c :
  col !! i = Some c ->
  Churn.fillna value col !! i = Some (if Churn.isna c then value else c).
Proof.
  intros H. unfold Churn.fillna. rewrite list_lookup_fmap, H. reflexivity.
Qed.

(** Every cell that line 70 fills holds the method object, for any column. *)
Lemma fillna_median_method (col : list Churn.cell) i c :
  col !! i = Some c -> Churn.isna c = true ->
  Churn.fillna Churn.CMedianMethod col !! i = Some Churn.CMedianMethod.
Proof. intros H Hna. rewrite (fillna_lookup _ _ _ _ H), Hna. reflexivity. Qed.

(** C2, at a frame with one blank [TotalCharges]: the transform returns,
    the blank cell is no longer missing, but it holds the bound method
    [median] itself and not the median 20 of the column. *)
Theorem median_fill_stores_method :
  (out ← Churn.transform_data parse_sample churn_sample; Ok (out !! "TotalCharges"))
    = Ok (Some [Churn.CFloat (FFin 10); Churn.CMedianMethod; Churn.CFloat (FFin 20);
                Churn.CFloat (FFin 30)]) /\
  Churn.Series_median
    [Churn.CFloat (FFin 10); Churn.CFloat FNaN; Churn.CFloat (FFin 20);
     Churn.CFloat (FFin 30)] = FFin 20 /\
  Churn.isna Churn.CMedianMethod = false /\
  Churn.CMedianMethod <> Churn.CFloat (FFin 20).
Proof.
  split; [vm_compute; reflexivity|].
  split; [vm_compute; reflexivity|].
  split; [reflexivity|discriminate].
Qed.

(** ** Bands *)

Ltac qcases :=
  repeat match goal with
  | |- context [Qle_bool ?a ?b] =>
      let E := fresh "E" in
      destruct (Qle_bool a b) eqn:E;
      [apply Qle_bool_iff in E
      |apply not_true_iff_false in E; rewrite Qle_bool_iff in E]
  | |- context [Qeq_bool ?a ?b] =>
      let E := fresh "E" in
      destruct (Qeq_bool a b) eqn:E;
      [apply Qeq_bool_iff in E|apply Qeq_bool_neq in E]
  end.

Ltac cut_band H :=
  unfold Churn.tenure_group, Churn.monthly_charge_segment, Churn.cut, Churn.cut_cell;
  cbn [length Churn.tenure_labels Churn.charge_labels Churn.tenure_bins Churn.charge_bins
       Nat.eqb Nat.sub negb for_each];
  rewrite H;
  unfold Churn.cut_code, Churn.searchsorted, Churn.tenure_bins, Churn.charge_bins,
    of_Z, inject_Z;
  cbn [length List.filter ltb leb eqb isnan orb andb];
  qcases; cbn; try reflexivity; exfalso; lra.

Ltac risk_band :=
  unfold AirQuality.classify_risk, gtb, ltb, of_Z, inject_Z;
  qcases; cbn; try reflexivity; exfalso; lra.

(** C3, as the code bins. Charge segments take their lower edge: 30 is
    Medium and 70 is High. Tenure groups and risk flags take their upper
    edge: tenure 12 is still New, 36 Regular, 60 Loyal, and a severity of
    200 is still Low Risk, 400 Moderate Risk; the next band starts just
    above. The last band of each has no upper end. *)
Theorem band_edges (c : Churn.cell) (q : Q) :
  Churn.as_float c = Some (FFin q) ->
  ((0 <= q < 30)%Q -> Churn.monthly_charge_segment [c] = Ok [Churn.CStr "Low"]) /\
  ((30 <= q < 70)%Q -> Churn.monthly_charge_segment [c] = Ok [Churn.CStr "Medium"]) /\
  ((70 <= q)%Q -> Churn.monthly_charge_segment [c] = Ok [Churn.CStr "High"]) /\
  ((0 <= q <= 12)%Q -> Churn.tenure_group [c] = Ok [Churn.CStr "New"]) /\
  ((12 < q <= 36)%Q -> Churn.tenure_group [c] = Ok [Churn.CStr "Regular"]) /\
  ((36 < q <= 60)%Q -> Churn.tenure_group [c] = Ok [Churn.CStr "Loyal"]) /\
  ((60 < q)%Q -> Churn.tenure_group [c] = Ok [Churn.CStr "Champion"]) /\
  ((q <= 200)%Q -> AirQuality.classify_risk (FFin q) = "Low Risk") /\
  ((200 < q <= 400)%Q -> AirQuality.classify_risk (FFin q) = "Moderate Risk") /\
  ((400 < q)%Q -> AirQuality.classify_risk (FFin q) = "High Risk").
Proof.
  intros Hc. repeat split; intros Hq.
  - cut_band Hc.
  - cut_band Hc.
  - cut_band Hc.
  - cut_band Hc.
  - cut_band Hc.
  - cut_band Hc.
  - cut_band Hc.
  - risk_band.
  - risk_band.
  - risk_band.
Qed.

Lemma band_edges_witness :
  (Churn.monthly_charge_segment [Churn.CInt 29] = Ok [Churn.CStr "Low"] /\
   Churn.monthly_charge_segment [Churn.CInt 30] = Ok [Churn.CStr "Medium"] /\
   Churn.monthly_charge_segment [Churn.CInt 70] = Ok [Churn.CStr "High"]) /\
  (Churn.tenure_group [Churn.CInt 12] = Ok [Churn.CStr "New"] /\
   Churn.tenure_group [Churn.CInt 13] = Ok [Churn.CStr "Regular"] /\
   Churn.tenure_group [Churn.CInt 60] = Ok [Churn.CStr "Loyal"] /\
   Churn.tenure_group [Churn.CInt 61] = Ok [Churn.CStr "Champion"]) /\
  (AirQuality.classify_risk (FFin 200) = "Low Risk" /\
   AirQuality.classify_risk (FFin 400) = "Moderate Risk" /\
   AirQuality.classify_risk (FFin 401) = "High Risk").
Proof.
  split; [split; [|split]|split; [split; [|split; [|split]]|split; [|split]]].
  - apply (band_edges (Churn.CInt 29) 29 eq_refl). lra.
  - apply (band_edges (Churn.CInt 30) 30 eq_refl). lra.
  - apply (band_edges (Churn.CInt 70) 70 eq_refl). lra.
  - apply (band_edges (Churn.CInt 12) 12 eq_refl). lra.
  - apply (band_edges (Churn.CInt 13) 13 eq_refl). lra.
  - apply (band_edges (Churn.CInt 60) 60 eq_refl). lra.
  - apply (band_edges (Churn.CInt 61) 61 eq_refl). lra.
  - apply (band_edges (Churn.CInt 200) 200 eq_refl). lra.
  - apply (band_edges (Churn.CInt 400) 400 eq_refl). lra.
  - apply (band_edges (Churn.CInt 401) 401 eq_refl). lra.
Defined.

(** A tenure of exactly 12 is not in the band that starts at 12, and a
    severity of exactly 200 or 400 is not in the band that starts there. *)
Lemma band_edges_counterexample :
  Churn.tenure_group [Churn.CInt 12] = Ok [Churn.CStr "New"] /\
  Churn.tenure_group [Churn.CInt 12] <> Ok [Churn.CStr "Regular"] /\
  AirQuality.classify_risk (of_Z 200) = "Low Risk" /\
  AirQuality.classify_risk (of_Z 200) <> "Moderate Risk" /\
  AirQuality.classify_risk (of_Z 400) = "Moderate Risk" /\
  AirQuality.classify_risk (of_Z 400) <> "High Risk".
Proof. repeat split; try reflexivity; vm_compute; discriminate. Qed.

Example tenure_zero_and_negative :
  Churn.tenure_group [Churn.CInt 0; Churn.CInt (-1); Churn.CFloat FNaN]
  = Ok [Churn.CStr "New"; Churn.CFloat FNaN; Churn.CFloat FNaN].
Proof. reflexivity. Qed.

Example cut_of_method_object :
  Churn.tenure_group [Churn.CInt 5; Churn.CMedianMethod] = Raise TypeError.
Proof. reflexivity. Qed.

(** ** Categorical codes *)

Lemma map_dict_internet_unknown s :
  s <> "DSL" -> s <> "Fiber optic" -> s <> "No" ->
  Churn.internet_service_codes !! s = None.
Proof.
  intros H1 H2 H3. unfold Churn.internet_service_codes. cbn [list_to_map foldr uncurry fst snd].
  rewrite !lookup_insert_ne by congruence. apply lookup_empty.
Qed.

Lemma map_dict_contract_unknown s :
  s <> "Month-to-month" -> s <> "One year" -> s <> "Two year" ->
  Churn.contract_codes !! s = None.
Proof.
  intros H1 H2 H3. unfold Churn.contract_codes. cbn [list_to_map foldr uncurry fst snd].
  rewrite !lookup_insert_ne by congruence. apply lookup_empty.
Qed.

(** C8, as the code derives the three columns. A category outside the two
    dicts gives the missing value NaN for [has_internet_service] and
    [contract_type_code]; [is_multi_line_user] has no fallback of its own:
    every value other than ["Yes"] gives the code 0. None of the three
    raises. *)
Theorem categorical_fallback (s : string) :
  (s <> "DSL" -> s <> "Fiber optic" -> s <> "No" ->
   Churn.has_internet_service (Churn.CStr s) = Churn.CFloat FNaN) /\
  (s <> "Month-to-month" -> s <> "One year" -> s <> "Two year" ->
   Churn.contract_type_code (Churn.CStr s) = Churn.CFloat FNaN) /\
  (s <> "Yes" -> Churn.is_multi_line_user (Churn.CStr s) = Churn.CInt 0).
Proof.
  repeat split.
  - intros H1 H2 H3. unfold Churn.has_internet_service, Churn.map_dict.
    rewrite map_dict_internet_unknown by assumption. reflexivity.
  - intros H1 H2 H3. unfold Churn.contract_type_code, Churn.map_dict.
    rewrite map_dict_contract_unknown by assumption. reflexivity.
  - intros H. unfold Churn.is_multi_line_user.
    destruct (String.eqb_spec s "Yes"); [contradiction|reflexivity].
Qed.

Lemma categorical_fallback_witness :
  Churn.has_internet_service (Churn.CStr "Unknown") = Churn.CFloat FNaN /\
  Churn.contract_type_code (Churn.CStr "Unknown") = Churn.CFloat FNaN /\
  Churn.is_multi_line_user (Churn.CStr "Unknown") = Churn.CInt 0.
Proof.
  destruct (categorical_fallback "Unknown") as (H1 & H2 & H3).
  split; [apply H1; discriminate|]. split; [apply H2; discriminate|apply H3; discriminate].
Defined.

(** ["Maybe"] is no known [MultipleLines] value, and it gets neither a
    missing code nor -1 but 0, the code of ["No"]. *)
Lemma categorical_fallback_counterexample :
  Churn.is_multi_line_user (Churn.CStr "Maybe") = Churn.CInt 0 /\
  Churn.is_multi_line_user (Churn.CStr "No") = Churn.CInt 0 /\
  Churn.isna (Churn.is_multi_line_user (Churn.CStr "Maybe")) = false /\
  Churn.is_multi_line_user (Churn.CStr "Maybe") <> Churn.CInt (-1).
Proof. repeat split; try reflexivity; discriminate. Qed.

Example known_categories :
  map Churn.has_internet_service [Churn.CStr "DSL"; Churn.CStr "Fiber optic"; Churn.CStr "No"]
    = [Churn.CInt 1; Churn.CInt 1; Churn.CInt 0] /\
  map Churn.contract_type_code
      [Churn.CStr "Month-to-month"; Churn.CStr "One year"; Churn.CStr "Two year"]
    = [Churn.CInt 0; Churn.CInt 1; Churn.CInt 2] /\
  Churn.is_multi_line_user (Churn.CStr "Yes") = Churn.CInt 1.
Proof. repeat split; vm_compute; reflexivity. Qed.

(** ** The air-quality transform: the two document shapes *)

Lemma lookup_insert_if_is_Some (row : gmap string AirQuality.json) (b : bool) k v p :
  is_Some (row !! p) -> is_Some ((if b then <[k := v]> row else row) !! p).
Proof.
  intros H. destruct b; [|exact H].
  destruct (decide (k = p)) as [->|Hne].
  - rewrite lookup_insert_eq. eauto.
  - rewrite lookup_insert_ne by exact Hne. exact H.
Qed.

(** The OpenAQ shape: the row of a measurement carries all six pollutant
    columns, whatever the measurement object holds. *)
Lemma measurement_row_columns city_name items p :
  p ∈ AirQuality.pollutant_cols ->
  exists row,
    AirQuality.measurement_row city_name (AirQuality.JObj items) = Ok row /\
    is_Some (row !! p).
Proof.
  intros Hp. unfold AirQuality.measurement_row. cbn [AirQuality.get mbind result_bind].
  eexists. split; [reflexivity|].
  do 6 apply lookup_insert_if_is_Some.
  unfold AirQuality.pollutant_cols in Hp.
  repeat (apply elem_of_cons in Hp as [->|Hp]; [eexists; vm_compute; reflexivity|]).
  apply elem_of_nil in Hp. destruct Hp.
Qed.

(** [hourly.get(key, [None])[i]] for an absent array: [None] at index 0
    and [IndexError] at every other index. *)
Lemma hourly_value_default items key i :
  AirQuality.obj_get items key = None ->
  AirQuality.hourly_value (AirQuality.JObj items) key i
  = match i with
    | O => Ok AirQuality.JNull
    | S _ => Raise IndexError
    end.
Proof.
  intros H. unfold AirQuality.hourly_value, AirQuality.get. rewrite H.
  destruct i; reflexivity.
Qed.

(** C5, at an Open-Meteo document of 24 hours without an [ozone] array.
    The default [[None]] of [hourly.get] has one element, so the row of
    hour 0 gets [None] and the row of hour 1 raises [IndexError]; no row
    of the document is kept. [uv_index], guarded by a membership test,
    may be absent, and so may any array of a one-hour document. *)
Theorem hourly_missing_array_raises :
  AirQuality.document_rows "Delhi"
    (hourly_doc 24 ["pm10"; "pm2_5"; "carbon_monoxide"; "nitrogen_dioxide"; "sulphur_dioxide"])
    = Raise IndexError /\
  AirQuality.hourly_value (AirQuality.JObj []) "ozone" 0 = Ok AirQuality.JNull /\
  AirQuality.hourly_value (AirQuality.JObj []) "ozone" 1 = Raise IndexError /\
  (rows ← AirQuality.document_rows "Delhi"
            (hourly_doc 24 ["pm10"; "pm2_5"; "carbon_monoxide"; "nitrogen_dioxide";
                            "sulphur_dioxide"; "ozone"]);
   Ok (length rows, map (fun r : gmap string AirQuality.json => r !! "uv_index") rows))
    = Ok (24, repeat (Some AirQuality.JNull) 24) /\
  (rows ← AirQuality.document_rows "Delhi" (hourly_doc 1 ["pm10"]);
   Ok (map (fun r : gmap string AirQuality.json => r !! "ozone") rows))
    = Ok [Some AirQuality.JNull].
Proof.
  split; [vm_compute; reflexivity|].
  split; [reflexivity|]. split; [reflexivity|].
  split; vm_compute; reflexivity.
Qed.

Example openaq_rows :
  (rows ← AirQuality.document_rows "Delhi" openaq_doc;
   Ok (map (fun r : gmap string AirQuality.json =>
              map (fun p => r !! p) ("city" :: AirQuality.pollutant_cols)) rows))
  = Ok [[Some (AirQuality.JStr "Delhi"); Some AirQuality.JNull; Some (AirQuality.JNum 88);
         Some AirQuality.JNull; Some AirQuality.JNull; Some AirQuality.JNull;
         Some AirQuality.JNull];
        [Some (AirQuality.JStr "Delhi"); Some AirQuality.JNull; Some AirQuality.JNull;
         Some AirQuality.JNull; Some AirQuality.JNull; Some AirQuality.JNull;
         Some (AirQuality.JNum 12)]].
Proof. vm_compute. reflexivity. Qed.

Example unknown_shape_adds_no_row :
  AirQuality.document_rows "Delhi" (AirQuality.JObj [("status", AirQuality.JStr "ok")]) = Ok [].
Proof. reflexivity. Qed.

(** ** Severity and risk of a row with a missing reading *)

Lemma add_nan_l y : add FNaN y = FNaN.
Proof. reflexivity. Qed.

Lemma add_nan_r x : add x FNaN = FNaN.
Proof. destruct x; reflexivity. Qed.

Lemma mul_nan_l y : mul FNaN y = FNaN.
Proof. reflexivity. Qed.

(** C10. When one of the six readings of a row is NaN, its severity score
    is NaN, and [classify_risk] of it is ["Low Risk"], whatever the other
    five readings are. *)
Theorem missing_reading_is_low_risk (row : AirQuality.readings) :
  AirQuality.pm10 row = FNaN \/ AirQuality.pm2_5 row = FNaN \/
  AirQuality.carbon_monoxide row = FNaN \/ AirQuality.nitrogen_dioxide row = FNaN \/
  AirQuality.sulphur_dioxide row = FNaN \/ AirQuality.ozone row = FNaN ->
  AirQuality.compute_severity row = FNaN /\
  AirQuality.classify_risk FNaN = "Low Risk" /\
  AirQuality.severity_score (AirQuality.feature_engineering row) = FNaN /\
  AirQuality.risk_flag (AirQuality.feature_engineering row) = "Low Risk".
Proof.
  intros H.
  assert (AirQuality.compute_severity row = FNaN) as Hsev.
  { unfold AirQuality.compute_severity.
    destruct H as [H|[H|[H|[H|[H|H]]]]]; rewrite H, mul_nan_l;
      rewrite ?add_nan_l, ?add_nan_r; reflexivity. }
  unfold AirQuality.feature_engineering.
  cbn [AirQuality.severity_score AirQuality.risk_flag]. rewrite Hsev.
  repeat split.
Qed.

Lemma missing_reading_is_low_risk_witness :
  AirQuality.compute_severity
    {| AirQuality.pm10 := FFin 900; AirQuality.pm2_5 := FFin 800;
       AirQuality.carbon_monoxide := FFin 5000; AirQuality.nitrogen_dioxide := FFin 400;
       AirQuality.sulphur_dioxide := FFin 300; AirQuality.ozone := FNaN |} = FNaN /\
  AirQuality.classify_risk FNaN = "Low Risk" /\
  AirQuality.severity_score
    (AirQuality.feature_engineering
       {| AirQuality.pm10 := FFin 900; AirQuality.pm2_5 := FFin 800;
          AirQuality.carbon_monoxide := FFin 5000; AirQuality.nitrogen_dioxide := FFin 400;
          AirQuality.sulphur_dioxide := FFin 300; AirQuality.ozone := FNaN |}) = FNaN /\
  AirQuality.risk_flag
    (AirQuality.feature_engineering
       {| AirQuality.pm10 := FFin 900; AirQuality.pm2_5 := FFin 800;
          AirQuality.carbon_monoxide := FFin 5000; AirQuality.nitrogen_dioxide := FFin 400;
          AirQuality.sulphur_dioxide := FFin 300; AirQuality.ozone := FNaN |}) = "Low Risk".
Proof.
  apply (missing_reading_is_low_risk
           {| AirQuality.pm10 := FFin 900; AirQuality.pm2_5 := FFin 800;
              AirQuality.carbon_monoxide := FFin 5000; AirQuality.nitrogen_dioxide := FFin 400;
              AirQuality.sulphur_dioxide := FFin 300; AirQuality.ozone := FNaN |}).
  do 5 right. reflexivity.
Defined.

Example complete_reading_is_high_risk :
  AirQuality.risk_flag
    (AirQuality.feature_engineering
       {| AirQuality.pm10 := FFin 900; AirQuality.pm2_5 := FFin 800;
          AirQuality.carbon_monoxide := FFin 5000; AirQuality.nitrogen_dioxide := FFin 400;
          AirQuality.sulphur_dioxide := FFin 300; AirQuality.ozone := FFin 50 |})
  = "High Risk".
Proof. reflexivity. Qed.

(** ** The coercion of a record before it is sent *)

Section CleanRecord.
Import AirQuality.
Variable isoformat : Z -> string.

Lemma nan_to_none_idem v : nan_to_none (nan_to_none v) = nan_to_none v.
Proof. destruct v as [| | [] | | |]; reflexivity. Qed.

Lemma clean_record_unfold (row : gmap string cell) :
clean_record isoformat row
= match (nan_to_none <$> row) !! "time" with
  | None => Raise KeyError
  | Some (CTimestamp ns) => Ok (<["time" := CStr (isoformat ns)]> (nan_to_none <$> row))
  | Some _ => Ok (nan_to_none <$> row)
  end.
Proof. reflexivity. Qed.

Lemma fmap_nan_to_none_idem (row : gmap string cell) :
nan_to_none <$> (nan_to_none <$> row) = nan_to_none <$> row.
Proof.
rewrite <- map_fmap_compose. apply map_fmap_ext. intros k v _. apply nan_to_none_idem.
Qed.

Lemma clean_record_fixed (row record : gmap string cell) :
clean_record isoformat row = Ok record ->
clean_record isoformat record = Ok record.
Proof.
rewrite clean_record_unfold.
destruct ((nan_to_none <$> row) !! "time") as [c|] eqn:Ht; [|discriminate].
assert (forall m : gmap string cell,
           m = nan_to_none <$> row -> (forall ns, c <> CTimestamp ns) ->
           clean_record isoformat m = Ok m) as Hplain.
{ intros m -> Hc. rewrite clean_record_unfold, fmap_nan_to_none_idem, Ht.
  destruct c; try reflexivity. destruct (Hc ns eq_refl). }
destruct c; try (intros [= <-]; apply Hplain; [reflexivity|discriminate]).
intros [= <-]. rewrite clean_record_unfold.
rewrite fmap_insert, fmap_nan_to_none_idem, lookup_insert_eq. cbn [nan_to_none].
reflexivity.
Qed.

Lemma clean_record_lookup (row record : gmap string cell) k :
clean_record isoformat row = Ok record ->
record !! k
= match row !! k with
  | Some (CTimestamp ns) =>
      if decide (k = "time") then Some (CStr (isoformat ns)) else Some (CTimestamp ns)
  | o => nan_to_none <$> o
  end.
Proof.
rewrite clean_record_unfold. rewrite lookup_fmap.
destruct (row !! "time") as [c|] eqn:Ht; cbn [fmap option_fmap option_map]; [|discriminate].
assert ((forall ns, c <> CTimestamp ns) ->
          (nan_to_none <$> row) !! k
          = match row !! k with
            | Some (CTimestamp ns) =>
                if decide (k = "time") then Some (CStr (isoformat ns))
                else Some (CTimestamp ns)
            | o => nan_to_none <$> o
            end) as Hplain.
{ intros Hc. rewrite lookup_fmap. destruct (row !! k) as [v|] eqn:Hk; [|reflexivity].
  destruct v; try reflexivity. destruct (decide (k = "time")) as [->|_]; [|reflexivity].
  rewrite Ht in Hk. injection Hk as ->. destruct (Hc _ eq_refl). }
destruct c as [| |x| |ns|]; try (intros [= <-]; apply Hplain; discriminate).
- destruct x; intros [= <-]; apply Hplain; discriminate.
- intros [= <-]. destruct (decide (k = "time")) as [->|Hne].
  + rewrite lookup_insert_eq, Ht. reflexivity.
  + rewrite lookup_insert_ne by congruence. rewrite lookup_fmap.
    destruct (row !! k) as [v|]; [|reflexivity].
    destruct v; reflexivity.
Qed.
End CleanRecord.

(** C9. [clean_record] is idempotent on the values of a record: applied to
    a record it has produced, taken again as a row, it returns that record;
    [None] stays [None] and the text of the timestamp stays as it is. On
    the way in it changes nothing but NaN floats (to [None]) and a
    [Timestamp] under ["time"] (to its ISO text): every other field keeps
    its value, and no field is added. *)
Theorem clean_record_idempotent isoformat (row record : gmap string AirQuality.cell) :
  AirQuality.clean_record isoformat row = Ok record ->
  AirQuality.clean_record isoformat record = Ok record /\
  (forall k, record !! k = Some AirQuality.CNone ->
     exists record', AirQuality.clean_record isoformat record = Ok record' /\
                     record' !! k = Some AirQuality.CNone) /\
  (forall k, row !! k = Some (AirQuality.CFloat FNaN) ->
     record !! k = Some AirQuality.CNone) /\
  (forall ns, row !! "time" = Some (AirQuality.CTimestamp ns) ->
     record !! "time" = Some (AirQuality.CStr (isoformat ns))) /\
  (forall k v, row !! k = Some v -> v <> AirQuality.CFloat FNaN ->
     k <> "time" \/ (forall ns, v <> AirQuality.CTimestamp ns) ->
     record !! k = Some v) /\
  (forall k, row !! k = None -> record !! k = None).
Proof.
  intros H. pose proof (clean_record_fixed isoformat row record H) as Hfix.
  split; [exact Hfix|]. split; [|split; [|split; [|split]]].
  - intros k Hk. exists record. split; [exact Hfix|exact Hk].
  - intros k Hk. rewrite (clean_record_lookup isoformat row record k H), Hk. reflexivity.
  - intros ns Hk. rewrite (clean_record_lookup isoformat row record "time" H), Hk.
    reflexivity.
  - intros k v Hk Hnan Hts.
    rewrite (clean_record_lookup isoformat row record k H), Hk.
    destruct v as [| |x| |ns|]; try reflexivity.
    + destruct x; [congruence|reflexivity|reflexivity].
    + destruct (decide (k = "time")) as [->|_]; [|reflexivity].
      destruct Hts as [Hts|Hts]; [congruence|destruct (Hts ns eq_refl)].
  - intros k Hk. rewrite (clean_record_lookup isoformat row record k H), Hk. reflexivity.
Qed.

Lemma clean_record_idempotent_witness :
  AirQuality.clean_record sample_isoformat cleaned_row = Ok cleaned_row /\
  (forall k, cleaned_row !! k = Some AirQuality.CNone ->
     exists record', AirQuality.clean_record sample_isoformat cleaned_row = Ok record' /\
                     record' !! k = Some AirQuality.CNone) /\
  (forall k, staged_row !! k = Some (AirQuality.CFloat FNaN) ->
     cleaned_row !! k = Some AirQuality.CNone) /\
  (forall ns, staged_row !! "time" = Some (AirQuality.CTimestamp ns) ->
     cleaned_row !! "time" = Some (AirQuality.CStr (sample_isoformat ns))) /\
  (forall k v, staged_row !! k = Some v -> v <> AirQuality.CFloat FNaN ->
     k <> "time" \/ (forall ns, v <> AirQuality.CTimestamp ns) ->
     cleaned_row !! k = Some v) /\
  (forall k, staged_row !! k = None -> cleaned_row !! k = None).
Proof.
  apply (clean_record_idempotent sample_isoformat staged_row cleaned_row).
  vm_compute. reflexivity.
Defined.

(** ** Whole runs *)

(** Five rows in chunks of two, the store failing once on the second
    chunk: three chunks are sent, the second twice, and all rows succeed. *)
Example air_run_transient_failure :
  (r ← AirQuality.load_with sample_isoformat (air_fails_on [1]) 2 2 (staged_rows 5);
   Ok (r.1, map length (AirQuality.inserts r.2)))
  = Ok ((5, 0), [2; 2; 2; 1]).
Proof. vm_compute. reflexivity. Qed.

(** The second chunk fails three times: it is counted as failed and the
    third chunk is still sent. *)
Example air_run_lost_chunk :
  (r ← AirQuality.load_with sample_isoformat (air_fails_on [1; 2; 3]) 2 2 (staged_rows 5);
   Ok (r.1, map length (AirQuality.inserts r.2)))
  = Ok ((3, 2), [2; 2; 2; 2; 1]).
Proof. vm_compute. reflexivity. Qed.

Example churn_run_lost_chunk :
  map length (Churn.inserts (Churn.load_with (churn_fails_on [1; 2; 3]) 2 3 (repeat ∅ 5)))
    = [2; 2; 2; 2; 1] /\
  last (Churn.load_with (churn_fails_on [1; 2; 3]) 2 3 (repeat ∅ 5))
    = Some Churn.PrintFinished.
Proof. split; vm_compute; reflexivity. Qed.

Example churn_run_zero_batch_size :
  Churn.load_with (churn_fails_on []) 0 3 (repeat ∅ 5) = [Churn.PrintErrorLoading].
Proof. reflexivity. Qed.

(** * Further properties of the code *)

(** ** Where a row of the frame goes *)

(** X1. Row [i] of the frame is row [i mod size] of chunk [i / size]: the
    chunk number and the offset the loaders print locate a row of the
    staged file. *)
Theorem batch_row_location {A : Type} (df : list A) (size : nat) chunks i :
  0 < size ->
  Batch.batches df size = Ok chunks ->
  i < length df ->
  exists c, chunks !! (i / size) = Some c /\ c !! (i mod size) = df !! i.
Proof.
  intros Hs E Hi. rewrite batches_eq in E by exact Hs. injection E as <-.
  pose proof (range_len_zero (length df) size Hs) as [_ Hlo].
  pose proof (Nat.div_mod_eq i size) as Hdm.
  pose proof (Nat.mod_upper_bound i size ltac:(lia)) as Hmod.
  assert (i / size < range_len 0 (length df) size) as Hk by nia.
  exists (take size (drop (i / size * size) df)). split.
  - rewrite list_lookup_fmap, lookup_seq_lt by exact Hk. reflexivity.
  - rewrite lookup_take_lt by exact Hmod. rewrite lookup_drop. f_equal. lia.
Qed.

Lemma batch_row_location_witness :
  exists c, [[10; 20]; [30; 40]; [50]] !! (4 / 2) = Some c /\ c !! (4 mod 2) = [10; 20; 30; 40; 50] !! 4.
Proof.
  apply (batch_row_location [10; 20; 30; 40; 50] 2 [[10; 20]; [30; 40]; [50]] 4);
    [lia|reflexivity|cbn; lia].
Defined.

(** ** The air-quality loader, chunk by chunk *)

Lemma air_sleep_app tr1 tr2 :
  Observe.air_sleep_seconds (tr1 ++ tr2)
  = Observe.air_sleep_seconds tr1 + Observe.air_sleep_seconds tr2.
Proof. unfold Observe.air_sleep_seconds. rewrite omap_app, sum_list_with_app. reflexivity. Qed.

Lemma air_batches_ok_app tr1 tr2 :
  Observe.air_batches_ok (tr1 ++ tr2)
  = Observe.air_batches_ok tr1 + Observe.air_batches_ok tr2.
Proof. unfold Observe.air_batches_ok. rewrite List.filter_app, length_app. reflexivity. Qed.

Lemma air_sleep_cons e tr :
  Observe.air_sleep_seconds (e :: tr)
  = match e with
    | AirQuality.Sleep s => s + Observe.air_sleep_seconds tr
    | _ => Observe.air_sleep_seconds tr
    end.
Proof. destruct e; reflexivity. Qed.

Lemma air_batches_ok_cons e tr :
  Observe.air_batches_ok (e :: tr)
  = match e with
    | AirQuality.PrintBatchOk => S (Observe.air_batches_ok tr)
    | _ => Observe.air_batches_ok tr
    end.
Proof. destruct e; reflexivity. Qed.

Section AirChunks.
Import AirQuality.
Variable isoformat : Z -> string.
Variable remote : nat -> list (gmap string cell) -> response.
Variables (size retries : nat).
Variables (df cdf : list (gmap string cell)).
Hypothesis Hsize : 0 < size.
Hypothesis Hclean : for_each (clean_record isoformat) df = Ok cdf.

Local Abbreviation chunk := (fun k : nat => take size (drop (k * size) cdf)).

Local Abbreviation next := (fun (st : counts) (k : nat) (ok : bool) (tr : list event) (calls' : nat) =>
  if ok then
    {| success_count := success_count st + length (chunk k);
       fail_count := fail_count st;
       trace := (trace st ++ PrintInserting (k + 1) (length (chunk k)) :: tr) ++ [PrintBatchOk];
       calls := calls' |}
  else
    {| success_count := success_count st;
       fail_count := fail_count st + length (chunk k);
       trace := (trace st ++ PrintInserting (k + 1) (length (chunk k)) :: tr)
                ++ [PrintBatchFailed];
       calls := calls' |}).

(** A property of the loop state that every chunk preserves holds at the
    end of the loop. *)
Lemma air_load_batches_inv (I : nat -> counts -> Prop) :
  (forall k st ok tr calls',
      insert_batch remote (chunk k) retries (calls st) = (ok, tr, calls') ->
      I k st -> I (S k) (next st k ok tr calls')) ->
  forall n j st,
    I j st ->
    exists st',
      load_batches isoformat remote size retries df
        (map (fun k => 0 + k * size) (seq j n)) st = Ok st' /\
      I (j + n) st'.
Proof.
  intros Hstep. induction n as [|n IH]; intros j st HI.
  - exists st. rewrite Nat.add_0_r. split; [reflexivity|exact HI].
  - cbn [seq map load_batches].
    rewrite (for_each_slice _ _ _ _ _ Hclean). cbn [mbind result_bind].
    rewrite slice_chunk.
    replace ((0 + j * size) / size) with j by (cbn; rewrite Nat.div_mul; lia).
    destruct (insert_batch remote (chunk j) retries (calls st)) as [[ok tr] calls'] eqn:E.
    pose proof (Hstep j st ok tr calls' E HI) as HI'.
    destruct (IH (S j) _ HI') as (st' & E' & HI'').
    exists st'. replace (j + S n) with (S j + n) by lia. split; [|exact HI''].
    rewrite <- E'. reflexivity.
Qed.

Lemma insert_batch_loop_sleeps batch attempts calls0 ok tr calls' :
  insert_batch_loop remote batch attempts calls0 = (ok, tr, calls') ->
  length (inserts tr)
  = Observe.air_sleep_seconds tr + (if ok then 1 else 0) /\
  Observe.air_batches_ok tr = 0.
Proof.
  revert calls0 ok tr calls'. induction attempts as [|attempt rest IH];
    intros calls0 ok tr calls'; cbn [insert_batch_loop].
  - intros [= <- <- <-]. split; reflexivity.
  - destruct (remote calls0 batch).
    + intros [= <- <- <-]. split; reflexivity.
    + destruct (insert_batch_loop remote batch rest (S calls0)) as [[ok1 tr1] c1] eqn:E.
      intros [= <- <- <-]. destruct (IH _ _ _ _ E) as [H1 H2].
      split; [rewrite !air_inserts_cons, !air_sleep_cons; cbv iota; cbn [length];
              rewrite H1; reflexivity
             |rewrite !air_batches_ok_cons; cbv iota; exact H2].
    + destruct (insert_batch_loop remote batch rest (S calls0)) as [[ok1 tr1] c1] eqn:E.
      intros [= <- <- <-]. destruct (IH _ _ _ _ E) as [H1 H2].
      split; [rewrite !air_inserts_cons, !air_sleep_cons; cbv iota; cbn [length];
              rewrite H1; reflexivity
             |rewrite !air_batches_ok_cons; cbv iota; exact H2].
Qed.

Lemma air_loop_sleep_invariant n st :
  length (inserts (trace st))
    = Observe.air_sleep_seconds (trace st) + Observe.air_batches_ok (trace st) ->
  exists st',
    load_batches isoformat remote size retries df
      (map (fun k => 0 + k * size) (seq 0 n)) st = Ok st' /\
    length (inserts (trace st'))
      = Observe.air_sleep_seconds (trace st') + Observe.air_batches_ok (trace st').
Proof.
  intros H0.
  apply (air_load_batches_inv
           (fun _ st => length (inserts (trace st))
                        = Observe.air_sleep_seconds (trace st)
                          + Observe.air_batches_ok (trace st))); [|exact H0].
  intros k st0 ok tr calls' E HI.
  apply insert_batch_loop_sleeps in E as [Hs Hb].
  destruct ok; cbn [trace];
    rewrite !inserts_app, !air_sleep_app, !air_batches_ok_app, !length_app,
      air_inserts_cons, air_sleep_cons, air_batches_ok_cons; cbv iota;
    rewrite HI, Hs, Hb; cbn; lia.
Qed.
End AirChunks.

Lemma air_load_with_unfold isoformat remote size retries df :
  0 < size ->
  AirQuality.load_with isoformat remote size retries df
  = (st ← AirQuality.load_batches isoformat remote size retries df
            (map (fun k => 0 + k * size) (seq 0 (range_len 0 (length df) size)))
            {| AirQuality.success_count := 0; AirQuality.fail_count := 0;
               AirQuality.trace := []; AirQuality.calls := 0 |};
     Ok (AirQuality.success_count st, AirQuality.fail_count st,
         AirQuality.trace st
           ++ [AirQuality.PrintSummary (AirQuality.success_count st)
                 (AirQuality.fail_count st)])).
Proof.
  intros Hs. unfold AirQuality.load_with. rewrite range3_pos by exact Hs. reflexivity.
Qed.

Lemma chunks_cover {A : Type} (xs : list A) size :
  0 < size ->
  concat (map (fun k => take size (drop (k * size) xs)) (seq 0 (range_len 0 (length xs) size)))
  = xs.
Proof.
  intros Hs. pose proof (concat_chunks xs size (range_len 0 (length xs) size) 0) as C.
  cbn [Nat.add] in C. rewrite C, drop_0. apply firstn_all2.
  pose proof (range_len_zero (length xs) size Hs). lia.
Qed.

(** X2. Every insert the air-quality loader sends is either the one that got
    its batch in, or is followed by a sleep of one second, the last failed
    attempt of a batch included: the inserts of a run number the seconds
    slept plus the batches reported as inserted. *)
Theorem air_inserts_are_sleeps_plus_successes isoformat remote size retries
    (df : list (gmap string AirQuality.cell)) :
  0 < size ->
  Forall (fun r => is_Some (r !! "time")) df ->
  exists s f tr,
    AirQuality.load_with isoformat remote size retries df = Ok (s, f, tr) /\
    length (AirQuality.inserts tr)
    = Observe.air_sleep_seconds tr + Observe.air_batches_ok tr.
Proof.
  intros Hs Htime.
  destruct (for_each_returns (AirQuality.clean_record isoformat) df) as [cdf Hclean].
  { eapply Forall_impl; [exact Htime|]. intros r. apply clean_record_returns. }
  destruct (air_loop_sleep_invariant isoformat remote size retries df cdf Hs Hclean
              (range_len 0 (length df) size)
              {| AirQuality.success_count := 0; AirQuality.fail_count := 0;
                 AirQuality.trace := []; AirQuality.calls := 0 |} eq_refl)
    as (st' & E & H).
  rewrite air_load_with_unfold by exact Hs. rewrite E. cbn [mbind result_bind].
  do 3 eexists. split; [reflexivity|].
  rewrite inserts_app, air_sleep_app, air_batches_ok_app, length_app, H. cbn. lia.
Qed.

Lemma air_inserts_are_sleeps_plus_successes_witness :
  exists s f tr,
    AirQuality.load_with sample_isoformat (air_fails_on [1; 2; 3]) 2 2 (staged_rows 5)
      = Ok (s, f, tr) /\
    length (AirQuality.inserts tr)
    = Observe.air_sleep_seconds tr + Observe.air_batches_ok tr.
Proof.
  apply (air_inserts_are_sleeps_plus_successes sample_isoformat (air_fails_on [1; 2; 3])
           2 2 (staged_rows 5)); [lia|].
  repeat constructor; eexists; vm_compute; reflexivity.
Defined.

(** X3. With a store that accepts every insert, the air-quality loader sends
    each chunk exactly once, never sleeps, and counts every row as inserted. *)
Theorem air_all_inserted_when_store_accepts isoformat remote size retries
    (df : list (gmap string AirQuality.cell)) :
  0 < size ->
  Forall (fun r => is_Some (r !! "time")) df ->
  (forall calls batch, remote calls batch = AirQuality.RespData) ->
  exists cdf chunks tr,
    for_each (AirQuality.clean_record isoformat) df = Ok cdf /\
    Batch.batches cdf size = Ok chunks /\
    AirQuality.load_with isoformat remote size retries df = Ok (length df, 0, tr) /\
    AirQuality.inserts tr = chunks /\
    Observe.air_sleep_seconds tr = 0.
Proof.
  intros Hs Htime Hok.
  destruct (for_each_returns (AirQuality.clean_record isoformat) df) as [cdf Hclean].
  { eapply Forall_impl; [exact Htime|]. intros r. apply clean_record_returns. }
  pose proof (for_each_length _ _ _ Hclean) as Hlen.
  set (chunk := fun k : nat => take size (drop (k * size) cdf)).
  destruct (air_load_batches_inv isoformat remote size retries df cdf Hs Hclean
              (fun k st =>
                 AirQuality.success_count st = length (concat (map chunk (seq 0 k))) /\
                 AirQuality.fail_count st = 0 /\
                 AirQuality.inserts (AirQuality.trace st) = map chunk (seq 0 k) /\
                 Observe.air_sleep_seconds (AirQuality.trace st) = 0))
    with (n := range_len 0 (length df) size) (j := 0)
         (st := {| AirQuality.success_count := 0; AirQuality.fail_count := 0;
                   AirQuality.trace := []; AirQuality.calls := 0 |})
    as (st' & E & Hsucc & Hfail & Hins & Hsleep).
  - intros k st ok tr calls' Eb (H1 & H2 & H3 & H4).
    unfold AirQuality.insert_batch, range in Eb.
    replace (retries + 1) with (S retries) in Eb by lia.
    cbn [seq AirQuality.insert_batch_loop] in Eb. rewrite Hok in Eb.
    injection Eb as <- <- <-.
    cbn [AirQuality.success_count AirQuality.fail_count AirQuality.trace].
    rewrite seq_S, !map_app, concat_app, !length_app. cbn [Nat.add map concat].
    rewrite app_nil_r, H1.
    rewrite !inserts_app, !air_sleep_app, air_inserts_cons, air_sleep_cons. cbv iota.
    rewrite H3, H4. split; [reflexivity|]. split; [exact H2|].
    split; [cbn; rewrite app_nil_r; reflexivity|reflexivity].
  - cbn. auto.
  - cbn [Nat.add] in Hsucc, Hins.
    exists cdf, (map chunk (seq 0 (range_len 0 (length df) size))),
      (AirQuality.trace st' ++ [AirQuality.PrintSummary (length df) 0]).
    split; [exact Hclean|]. split; [rewrite batches_eq by exact Hs; rewrite Hlen; reflexivity|].
    rewrite air_load_with_unfold by exact Hs. rewrite E. cbn [mbind result_bind].
    assert (AirQuality.success_count st' = length df) as ->.
    { rewrite Hsucc, <- Hlen. unfold chunk. rewrite chunks_cover by exact Hs. reflexivity. }
    rewrite Hfail. split; [reflexivity|].
    rewrite inserts_app, air_sleep_app, Hins, Hsleep. cbn. rewrite app_nil_r.
    split; reflexivity.
Qed.

Lemma air_all_inserted_when_store_accepts_witness :
  exists cdf chunks tr,
    for_each (AirQuality.clean_record sample_isoformat) (staged_rows 5) = Ok cdf /\
    Batch.batches cdf 2 = Ok chunks /\
    AirQuality.load_with sample_isoformat (air_fails_on []) 2 2 (staged_rows 5)
      = Ok (length (staged_rows 5), 0, tr) /\
    AirQuality.inserts tr = chunks /\
    Observe.air_sleep_seconds tr = 0.
Proof.
  apply (air_all_inserted_when_store_accepts sample_isoformat (air_fails_on []) 2 2
           (staged_rows 5)); [lia| |reflexivity].
  repeat constructor; eexists; vm_compute; reflexivity.
Defined.

(** X4. With a store that never accepts an insert, the air-quality loader
    sends each chunk [retries + 1] times, sleeps one second after each of
    them, and counts every row as failed. *)
Theorem air_all_failed_when_store_rejects isoformat remote size retries
    (df : list (gmap string AirQuality.cell)) :
  0 < size ->
  Forall (fun r => is_Some (r !! "time")) df ->
  (forall calls batch, remote calls batch <> AirQuality.RespData) ->
  exists cdf chunks tr,
    for_each (AirQuality.clean_record isoformat) df = Ok cdf /\
    Batch.batches cdf size = Ok chunks /\
    AirQuality.load_with isoformat remote size retries df = Ok (0, length df, tr) /\
    AirQuality.inserts tr = concat (map (fun c => repeat c (retries + 1)) chunks) /\
    Observe.air_sleep_seconds tr = length chunks * (retries + 1).
Proof.
  intros Hs Htime Hno.
  destruct (for_each_returns (AirQuality.clean_record isoformat) df) as [cdf Hclean].
  { eapply Forall_impl; [exact Htime|]. intros r. apply clean_record_returns. }
  pose proof (for_each_length _ _ _ Hclean) as Hlen.
  set (chunk := fun k : nat => take size (drop (k * size) cdf)).
  destruct (air_load_batches_inv isoformat remote size retries df cdf Hs Hclean
              (fun k st =>
                 AirQuality.success_count st = 0 /\
                 AirQuality.fail_count st = length (concat (map chunk (seq 0 k))) /\
                 AirQuality.inserts (AirQuality.trace st)
                   = concat (map (fun c => repeat c (retries + 1)) (map chunk (seq 0 k))) /\
                 Observe.air_sleep_seconds (AirQuality.trace st) = k * (retries + 1)))
    with (n := range_len 0 (length df) size) (j := 0)
         (st := {| AirQuality.success_count := 0; AirQuality.fail_count := 0;
                   AirQuality.trace := []; AirQuality.calls := 0 |})
    as (st' & E & Hsucc & Hfail & Hins & Hsleep).
  - intros k st ok tr calls' Eb (H1 & H2 & H3 & H4).
    unfold AirQuality.insert_batch in Eb.
    destruct (insert_batch_loop_exhausted remote (chunk k) (range (retries + 1))
                (AirQuality.calls st)) as (tr0 & E0 & Hins0).
    { intros i _. apply Hno. }
    unfold range in E0, Hins0. rewrite length_seq in E0, Hins0.
    unfold range in Eb. fold (chunk k) in Eb. rewrite E0 in Eb. injection Eb as <- <- <-.
    pose proof (insert_batch_loop_sleeps remote _ _ _ _ _ _ E0) as [Hsl _].
    rewrite Hins0, repeat_length, Nat.add_0_r in Hsl.
    cbn [AirQuality.success_count AirQuality.fail_count AirQuality.trace].
    rewrite seq_S, !map_app, !concat_app, !length_app. cbn [Nat.add map concat].
    rewrite !app_nil_r.
    rewrite !inserts_app, !air_sleep_app, air_inserts_cons, air_sleep_cons. cbv iota.
    rewrite H3, H4, Hins0, <- Hsl.
    split; [exact H1|]. split; [rewrite H2; reflexivity|].
    split; [cbn; rewrite app_nil_r; reflexivity|cbn; lia].
  - cbn. auto.
  - cbn [Nat.add] in Hfail, Hins, Hsleep.
    exists cdf, (map chunk (seq 0 (range_len 0 (length df) size))),
      (AirQuality.trace st' ++ [AirQuality.PrintSummary 0 (length df)]).
    split; [exact Hclean|]. split; [rewrite batches_eq by exact Hs; rewrite Hlen; reflexivity|].
    rewrite air_load_with_unfold by exact Hs. rewrite E. cbn [mbind result_bind].
    assert (AirQuality.fail_count st' = length df) as ->.
    { rewrite Hfail, <- Hlen. unfold chunk. rewrite chunks_cover by exact Hs. reflexivity. }
    rewrite Hsucc. split; [reflexivity|].
    rewrite inserts_app, air_sleep_app, Hins, Hsleep. cbn. rewrite app_nil_r.
    rewrite length_map, length_seq. split; [reflexivity|lia].
Qed.

Lemma air_all_failed_when_store_rejects_witness :
  exists cdf chunks tr,
    for_each (AirQuality.clean_record sample_isoformat) (staged_rows 5) = Ok cdf /\
    Batch.batches cdf 2 = Ok chunks /\
    AirQuality.load_with sample_isoformat (fun _ _ => AirQuality.RespNoData) 2 2
      (staged_rows 5) = Ok (0, length (staged_rows 5), tr) /\
    AirQuality.inserts tr = concat (map (fun c => repeat c (2 + 1)) chunks) /\
    Observe.air_sleep_seconds tr = length chunks * (2 + 1).
Proof.
  apply (air_all_failed_when_store_rejects sample_isoformat
           (fun _ _ => AirQuality.RespNoData) 2 2 (staged_rows 5)); [lia| |discriminate].
  repeat constructor; eexists; vm_compute; reflexivity.
Defined.

(** ** When the air-quality loader raises *)






Lemma returns_for_each {A B : Type} (f : A -> result B) xs :
  returns (for_each f xs) -> Forall (fun x => returns (f x)) xs.
Proof.
  induction xs as [|x xs IH]; cbn [for_each]; [constructor|].
  destruct (f x) as [b|e] eqn:Ex; cbn; [|intros []].
  destruct (for_each f xs) as [bs|e]; cbn; [|intros []].
  intros _. constructor; [rewrite Ex; exact I|apply IH; exact I].
Qed.




Example air_load_without_time :
  AirQuality.load_with sample_isoformat (air_fails_on []) 2 2
    [ {[ "time" := AirQuality.CNaT ]}; {[ "city" := AirQuality.CStr "Delhi" ]} ]
  = Raise KeyError.
Proof. vm_compute. reflexivity. Qed.

(** ** The churn loader, chunk by chunk *)

Lemma churn_sleep_app tr1 tr2 :
  Observe.churn_sleep_seconds (tr1 ++ tr2)
  = Observe.churn_sleep_seconds tr1 + Observe.churn_sleep_seconds tr2.
Proof. unfold Observe.churn_sleep_seconds. rewrite omap_app, sum_list_with_app. reflexivity. Qed.

Lemma churn_sleep_cons e tr :
  Observe.churn_sleep_seconds (e :: tr)
  = match e with
    | Churn.Sleep s => s + Observe.churn_sleep_seconds tr
    | _ => Observe.churn_sleep_seconds tr
    end.
Proof. destruct e; reflexivity. Qed.

Section ChurnChunks.
Import Churn.
Variable remote : nat -> list (gmap string cell) -> response.
Variables (size budget total : nat).
Variable df : list (gmap string cell).

Lemma retry_loop_sleeps start records m j calls :
  j + m = budget -> 0 < m ->
  Observe.churn_sleep_seconds
    (retry_loop remote size budget total start records (seq j m) calls).1 + 2
  = 2 * length (inserts (retry_loop remote size budget total start records (seq j m) calls).1).
Proof.
  revert j calls. induction m as [|m IH]; intros j calls Hj Hm; [lia|].
  cbn [seq retry_loop].
  destruct (remote calls records); [reflexivity| |];
    (destruct (Nat.ltb_spec j (budget - 1)) as [Hlt|Hge]; [|reflexivity];
     specialize (IH (S j) (S calls) ltac:(lia) ltac:(lia));
     destruct (retry_loop remote size budget total start records (seq (S j) m) (S calls))
       as [tr calls'];
     cbn [fst] in IH |- *;
     rewrite !churn_inserts_cons, !churn_sleep_cons; cbv iota; cbn [length]; lia).
Qed.

Lemma churn_load_batches_sleeps n j calls :
  0 < budget ->
  Observe.churn_sleep_seconds
    (load_batches remote size budget total df (map (fun k => 0 + k * size) (seq j n)) calls).1
    + 2 * n
  = 2 * length (inserts (load_batches remote size budget total df
                           (map (fun k => 0 + k * size) (seq j n)) calls).1).
Proof.
  intros Hb. revert j calls. induction n as [|n IH]; intros j calls; [reflexivity|].
  cbn [seq map load_batches].
  pose proof (retry_loop_sleeps (0 + j * size) (slice df (0 + j * size) (0 + j * size + size))
                budget 0 calls ltac:(lia) Hb) as Hchunk.
  fold (range budget) in Hchunk.
  destruct (retry_loop remote size budget total (0 + j * size)
              (slice df (0 + j * size) (0 + j * size + size)) (range budget) calls)
    as [tr calls'].
  specialize (IH (S j) calls').
  destruct (load_batches remote size budget total df
              (map (fun k => 0 + k * size) (seq (S j) n)) calls') as [tr' calls''].
  cbn [fst] in *. rewrite churn_sleep_app, churn_inserts_app, length_app. lia.
Qed.

End ChurnChunks.

(** X6. The churn loader sleeps two seconds between two attempts of a batch
    and at no other time, not after the attempt that gives the batch up:
    over a run, the seconds slept are twice the inserts beyond the first
    of each chunk. *)
Theorem churn_sleeps_between_attempts remote size budget
    (df : list (gmap string Churn.cell)) :
  0 < size -> 0 < budget ->
  exists chunks,
    Batch.batches (map Churn.where_notnull df) size = Ok chunks /\
    Observe.churn_sleep_seconds (Churn.load_with remote size budget df)
      + 2 * length chunks
    = 2 * length (Churn.inserts (Churn.load_with remote size budget df)).
Proof.
  intros Hs Hb. set (df' := map Churn.where_notnull df).
  eexists. split; [apply batches_eq; exact Hs|].
  unfold Churn.load_with. fold df'. rewrite range3_pos by exact Hs.
  rewrite churn_sleep_app, churn_inserts_app, length_app, length_map, length_seq.
  pose proof (churn_load_batches_sleeps remote size budget (length df') df'
                (range_len 0 (length df') size) 0 0 Hb) as H.
  change (Observe.churn_sleep_seconds [Churn.PrintFinished]) with 0.
  change (length (Churn.inserts [Churn.PrintFinished])) with 0. lia.
Qed.

Lemma churn_sleeps_between_attempts_witness :
  exists chunks,
    Batch.batches (map Churn.where_notnull (repeat ∅ 5)) 2 = Ok chunks /\
    Observe.churn_sleep_seconds (Churn.load_with (churn_fails_on [1; 2; 3]) 2 3 (repeat ∅ 5))
      + 2 * length chunks
    = 2 * length (Churn.inserts (Churn.load_with (churn_fails_on [1; 2; 3]) 2 3 (repeat ∅ 5))).
Proof.
  apply (churn_sleeps_between_attempts (churn_fails_on [1; 2; 3]) 2 3 (repeat ∅ 5)); lia.
Defined.



(** ** What a cleaned record holds *)

(** X8. A record that [clean_record] returns has the fields of the row, no
    NaN float in any of them and no [Timestamp] under ["time"]; a missing
    timestamp, [NaT], is neither and is sent as it is. *)
Theorem clean_record_output isoformat (row record : gmap string AirQuality.cell) :
  AirQuality.clean_record isoformat row = Ok record ->
  dom record = dom row /\
  (forall k, record !! k <> Some (AirQuality.CFloat FNaN)) /\
  (forall ns, record !! "time" <> Some (AirQuality.CTimestamp ns)) /\
  (row !! "time" = Some AirQuality.CNaT -> record !! "time" = Some AirQuality.CNaT).
Proof.
  intros H. pose proof (fun k => clean_record_lookup isoformat row record k H) as L.
  split; [|split; [|split]].
  - apply set_eq. intros k. rewrite !elem_of_dom, L.
    destruct (row !! k) as [v|]; [|reflexivity].
    split; intros _; [eauto|].
    destruct v as [| |[]| |ns|]; cbn; eauto. destruct (decide (k = "time")); eauto.
  - intros k. rewrite L. destruct (row !! k) as [v|]; [|discriminate].
    destruct v as [| |[]| |ns|]; cbn; try discriminate.
    destruct (decide (k = "time")); discriminate.
  - intros ns. rewrite L. destruct (row !! "time") as [v|]; [|discriminate].
    destruct v as [| |[]| |ns'|]; cbn; discriminate.
  - intros Ht. rewrite L, Ht. reflexivity.
Qed.

Lemma clean_record_output_witness :
  dom cleaned_row = dom staged_row /\
  (forall k, cleaned_row !! k <> Some (AirQuality.CFloat FNaN)) /\
  (forall ns, cleaned_row !! "time" <> Some (AirQuality.CTimestamp ns)) /\
  (staged_row !! "time" = Some AirQuality.CNaT ->
   cleaned_row !! "time" = Some AirQuality.CNaT).
Proof.
  apply (clean_record_output sample_isoformat staged_row cleaned_row).
  vm_compute. reflexivity.
Defined.

(** ** Features of a row *)

Ltac float_band :=
  unfold AirQuality.categorize_aqi, AirQuality.classify_risk, AirQuality.compute_severity,
    ChurnAnalysis.categorize_customers, gtb, ltb, leb, isnan, of_Z, inject_Z, add, mul;
  cbn [AirQuality.pm10 AirQuality.pm2_5 AirQuality.carbon_monoxide
       AirQuality.nitrogen_dioxide AirQuality.sulphur_dioxide AirQuality.ozone];
  qcases; cbn; try reflexivity; try tauto; try (exfalso; lra).

(** X9. [categorize_aqi] gives no category exactly for a missing PM2.5. Any
    other value falls in one of five bands, each closed at its upper
    edge; everything up to 50, negative readings included, is ["Good"]. *)
Theorem categorize_aqi_bands (x : float) (q : Q) :
  (AirQuality.categorize_aqi x = None <-> x = FNaN) /\
  ((q <= 50)%Q -> AirQuality.categorize_aqi (FFin q) = Some "Good") /\
  ((50 < q <= 100)%Q -> AirQuality.categorize_aqi (FFin q) = Some "Moderate") /\
  ((100 < q <= 200)%Q -> AirQuality.categorize_aqi (FFin q) = Some "Unhealthy") /\
  ((200 < q <= 300)%Q -> AirQuality.categorize_aqi (FFin q) = Some "Very Unhealthy") /\
  ((300 < q)%Q -> AirQuality.categorize_aqi (FFin q) = Some "Hazardous").
Proof.
  split; [|split; [|split; [|split; [|split]]]]; try (intros Hq; float_band).
  split.
  - destruct x as [|[]|q']; [reflexivity| | |]; unfold AirQuality.categorize_aqi;
      cbn [isnan leb of_Z]; try discriminate.
    repeat match goal with |- context [Qle_bool ?a ?b] => destruct (Qle_bool a b) end;
      discriminate.
  - intros ->. reflexivity.
Qed.

Lemma categorize_aqi_bands_witness :
  AirQuality.categorize_aqi (FFin 50) = Some "Good" /\
  AirQuality.categorize_aqi (FFin (-3)) = Some "Good" /\
  AirQuality.categorize_aqi (FFin 51) = Some "Moderate" /\
  AirQuality.categorize_aqi (FFin 200) = Some "Unhealthy" /\
  AirQuality.categorize_aqi (FFin 300) = Some "Very Unhealthy" /\
  AirQuality.categorize_aqi (FFin 301) = Some "Hazardous".
Proof.
  split; [|split; [|split; [|split; [|split]]]].
  - apply (categorize_aqi_bands FNaN 50). lra.
  - apply (categorize_aqi_bands FNaN (-3)). lra.
  - apply (categorize_aqi_bands FNaN 51). lra.
  - apply (categorize_aqi_bands FNaN 200). lra.
  - apply (categorize_aqi_bands FNaN 300). lra.
  - apply (categorize_aqi_bands FNaN 301). lra.
Defined.



(** ** Rows of the two document shapes *)

Ltac str_cases s :=
  repeat match goal with
  | |- context [String.eqb s ?lit] =>
      let E := fresh "E" in
      destruct (String.eqb_spec s lit) as [E|E]; [subst s|]
  end.

Ltac eval_eqb :=
  repeat match goal with
  | |- context [String.eqb ?a ?b] =>
      let r := eval vm_compute in (String.eqb a b) in
      change (String.eqb a b) with r
  end;
  cbn [orb]; cbv beta iota.

Ltac row_facts value :=
  split;
    [rewrite !dom_insert_L, dom_empty_L; cbn [list_to_set AirQuality.pollutant_cols];
     set_solver|];
  split; [vm_compute; reflexivity|];
  split; [vm_compute; reflexivity|];
  destruct value; vm_compute; lia.

(** X11. The row of an OpenAQ measurement has the nine columns, the city of the
    file, no UV index, and a value in at most one pollutant column: the
    other five are [None], and all six are when the parameter is none of
    pm10, pm25, pm2.5, co, no2, so2, o3. *)
Theorem measurement_row_one_pollutant city_name items (row : gmap string AirQuality.json) :
  AirQuality.measurement_row city_name (AirQuality.JObj items) = Ok row ->
  dom row
    = list_to_set ("city" :: "time" :: "uv_index" :: AirQuality.pollutant_cols) /\
  row !! "city" = Some (AirQuality.JStr city_name) /\
  row !! "uv_index" = Some AirQuality.JNull /\
  length (List.filter (fun p => negb (AirFrame.isna (row !! p))) AirQuality.pollutant_cols)
    <= 1.
Proof.
  unfold AirQuality.measurement_row. cbn [AirQuality.get mbind result_bind].
  generalize (default AirQuality.JNull (AirQuality.obj_get items "lastUpdated")),
    (default AirQuality.JNull (AirQuality.obj_get items "value")),
    (default AirQuality.JNull (AirQuality.obj_get items "parameter")).
  intros updated value pollutant [= <-].
  destruct pollutant as [| | |s| |]; cbn [AirQuality.eq_str orb]; cbv beta iota;
    [row_facts value|row_facts value|row_facts value| |row_facts value|row_facts value].
  str_cases s; eval_eqb; row_facts value.
Qed.

Lemma measurement_row_one_pollutant_witness :
  dom pm25_row
    = list_to_set ("city" :: "time" :: "uv_index" :: AirQuality.pollutant_cols) /\
  pm25_row !! "city" = Some (AirQuality.JStr "Delhi") /\
  pm25_row !! "uv_index" = Some AirQuality.JNull /\
  length (List.filter (fun p => negb (AirFrame.isna (pm25_row !! p)))
            AirQuality.pollutant_cols) <= 1.
Proof.
  apply (measurement_row_one_pollutant "Delhi" pm25_measurement pm25_row).
  vm_compute. reflexivity.
Defined.

Ltac kept_facts value :=
  split; [destruct value; vm_compute; reflexivity|];
  split; [repeat constructor; apply elem_of_dom; eexists; vm_compute; reflexivity|];
  first [left; vm_compute; reflexivity|right; vm_compute; reflexivity].

Lemma measurement_row_kept city_name items (row : gmap string AirQuality.json) :
  AirQuality.measurement_row city_name (AirQuality.JObj items) = Ok row ->
  AirFrame.has_reading row = AirFrame.usable_measurement items /\
  Forall (fun p => p ∈ dom row) AirQuality.pollutant_cols /\
  (row !! "pm10" = Some AirQuality.JNull \/ row !! "pm2_5" = Some AirQuality.JNull).
Proof.
  unfold AirQuality.measurement_row, AirFrame.usable_measurement,
    AirFrame.recognised_parameter.
  cbn [AirQuality.get mbind result_bind].
  generalize (default AirQuality.JNull (AirQuality.obj_get items "lastUpdated")),
    (default AirQuality.JNull (AirQuality.obj_get items "value")),
    (default AirQuality.JNull (AirQuality.obj_get items "parameter")).
  intros updated value pollutant [= <-].
  destruct pollutant as [| | |s| |]; cbn [AirQuality.eq_str orb andb]; cbv beta iota;
    [kept_facts value|kept_facts value|kept_facts value| |kept_facts value|kept_facts value].
  str_cases s; eval_eqb; kept_facts value.
Qed.

Lemma severity_nan_pm10_or_pm2_5 (r : AirQuality.readings) :
  AirQuality.pm10 r = FNaN \/ AirQuality.pm2_5 r = FNaN ->
  AirQuality.compute_severity r = FNaN.
Proof.
  unfold AirQuality.compute_severity. intros [H|H]; rewrite H, mul_nan_l;
    rewrite ?add_nan_l, ?add_nan_r; reflexivity.
Qed.

(** X12. No OpenAQ measurement ever gets a severity: its row has one reading
    at most, so with a conversion that turns [None] into NaN its severity
    score is NaN and its risk flag is ["Low Risk"], whatever was measured. *)
Theorem openaq_rows_are_low_risk (to_numeric : AirQuality.json -> float)
    city_name items (row : gmap string AirQuality.json) :
  to_numeric AirQuality.JNull = FNaN ->
  AirQuality.measurement_row city_name (AirQuality.JObj items) = Ok row ->
  AirQuality.severity_score
    (AirQuality.feature_engineering (AirFrame.readings_of to_numeric row)) = FNaN /\
  AirQuality.risk_flag
    (AirQuality.feature_engineering (AirFrame.readings_of to_numeric row)) = "Low Risk".
Proof.
  intros Hnull Hrow. apply measurement_row_kept in Hrow as (_ & _ & Hnan).
  assert (AirQuality.compute_severity (AirFrame.readings_of to_numeric row) = FNaN) as Hsev.
  { apply severity_nan_pm10_or_pm2_5. unfold AirFrame.readings_of.
    cbn [AirQuality.pm10 AirQuality.pm2_5].
    destruct Hnan as [H|H]; rewrite H; [left|right]; exact Hnull. }
  unfold AirQuality.feature_engineering.
  cbn [AirQuality.severity_score AirQuality.risk_flag]. rewrite Hsev.
  split; reflexivity.
Qed.

Lemma openaq_rows_are_low_risk_witness :
  AirQuality.severity_score
    (AirQuality.feature_engineering (AirFrame.readings_of sample_to_numeric pm25_row)) = FNaN /\
  AirQuality.risk_flag
    (AirQuality.feature_engineering (AirFrame.readings_of sample_to_numeric pm25_row))
    = "Low Risk".
Proof.
  apply (openaq_rows_are_low_risk sample_to_numeric "Delhi" pm25_measurement pm25_row);
    [reflexivity|vm_compute; reflexivity].
Defined.

(** ** From the collected rows to the frame *)

Lemma dropna_all_filter (rows : list (gmap string AirQuality.json)) :
  rows <> [] ->
  Forall (fun r => Forall (fun p => p ∈ dom r) AirQuality.pollutant_cols) rows ->
  AirFrame.dropna_all rows = Ok (List.filter AirFrame.has_reading rows).
Proof.
  intros Hne Hcols. unfold AirFrame.dropna_all.
  rewrite bool_decide_eq_true_2; [reflexivity|].
  destruct rows as [|r rest]; [congruence|].
  apply Forall_inv in Hcols. eapply Forall_impl; [exact Hcols|].
  intros p Hp. unfold AirFrame.columns. apply elem_of_union_list.
  exists (dom r). split; [|exact Hp]. rewrite fmap_cons. left.
Qed.

Lemma measurement_rows_filter city_name ms rows :
  for_each (AirQuality.measurement_row city_name) (map AirQuality.JObj ms) = Ok rows ->
  for_each (AirQuality.measurement_row city_name)
    (map AirQuality.JObj (List.filter AirFrame.usable_measurement ms))
    = Ok (List.filter AirFrame.has_reading rows) /\
  Forall (fun r => Forall (fun p => p ∈ dom r) AirQuality.pollutant_cols) rows.
Proof.
  revert rows. induction ms as [|m ms IH]; intros rows; cbn [map for_each].
  - intros [= <-]. split; [reflexivity|constructor].
  - destruct (AirQuality.measurement_row city_name (AirQuality.JObj m)) as [r|e] eqn:Er;
      cbn [mbind result_bind]; [|discriminate].
    destruct (for_each _ (map AirQuality.JObj ms)) as [rs|e] eqn:Ers;
      cbn [mbind result_bind]; [|discriminate].
    intros [= <-]. destruct (IH rs eq_refl) as [IH1 IH2].
    destruct (measurement_row_kept _ _ _ Er) as (Hkept & Hdom & _).
    split; [|constructor; assumption].
    cbn [List.filter]. rewrite Hkept.
    destruct (AirFrame.usable_measurement m); [|exact IH1].
    cbn [map for_each]. rewrite Er, IH1. reflexivity.
Qed.

(** X13. [dropna] keeps of the OpenAQ rows exactly those of the measurements
    with a recognised parameter and a value: a measurement of any other
    parameter, or without a value, leaves no row in the frame. *)
Theorem dropna_keeps_usable_measurements city_name ms rows :
  ms <> [] ->
  for_each (AirQuality.measurement_row city_name) (map AirQuality.JObj ms) = Ok rows ->
  exists kept,
    AirFrame.dropna_all rows = Ok kept /\
    for_each (AirQuality.measurement_row city_name)
      (map AirQuality.JObj (List.filter AirFrame.usable_measurement ms)) = Ok kept.
Proof.
  intros Hne Hrows. destruct (measurement_rows_filter _ _ _ Hrows) as [Hf Hcols].
  exists (List.filter AirFrame.has_reading rows). split; [|exact Hf].
  apply dropna_all_filter; [|exact Hcols].
  apply for_each_length in Hrows. rewrite length_map in Hrows.
  destruct rows; [|discriminate]. destruct ms; [congruence|discriminate].
Qed.

Lemma dropna_keeps_usable_measurements_witness :
  exists kept,
    AirFrame.dropna_all [pm25_row] = Ok kept /\
    for_each (AirQuality.measurement_row "Delhi")
      (map AirQuality.JObj (List.filter AirFrame.usable_measurement [pm25_measurement]))
      = Ok kept.
Proof.
  apply (dropna_keeps_usable_measurements "Delhi" [pm25_measurement] [pm25_row]);
    [discriminate|vm_compute; reflexivity].
Defined.

Lemma for_each_app {A B : Type} (f : A -> result B) xs ys :
  for_each f (xs ++ ys)
  = (xs' ← for_each f xs; ys' ← for_each f ys; Ok (xs' ++ ys')).
Proof.
  induction xs as [|x xs IH]; cbn [app for_each].
  - destruct (for_each f ys); reflexivity.
  - destruct (f x) as [b|e]; cbn [mbind result_bind]; [|reflexivity].
    rewrite IH. destruct (for_each f xs) as [bs|e]; cbn [mbind result_bind]; [|reflexivity].
    destruct (for_each f ys); reflexivity.
Qed.

Lemma document_rows_unknown city_name items :
  AirQuality.obj_get items "results" = None ->
  AirQuality.obj_get items "hourly" = None ->
  AirQuality.document_rows city_name (AirQuality.JObj items) = Ok [].
Proof.
  intros H1 H2. unfold AirQuality.document_rows, AirQuality.contains.
  rewrite H1, H2. reflexivity.
Qed.

(** X14. A document that has neither a ["results"] nor an ["hourly"] key adds
    no row and does not disturb the documents around it. *)
Theorem collect_rows_skips_unknown docs1 docs2 city_name items :
  AirQuality.obj_get items "results" = None ->
  AirQuality.obj_get items "hourly" = None ->
  AirQuality.collect_rows (docs1 ++ (city_name, AirQuality.JObj items) :: docs2)
  = AirQuality.collect_rows (docs1 ++ docs2).
Proof.
  intros H1 H2. unfold AirQuality.collect_rows. rewrite !for_each_app.
  cbn [for_each fst snd]. rewrite (document_rows_unknown _ _ H1 H2).
  destruct (for_each _ docs1) as [r1|e]; cbn [mbind result_bind]; [|reflexivity].
  destruct (for_each _ docs2) as [r2|e]; cbn [mbind result_bind]; [|reflexivity].
  rewrite !concat_app. reflexivity.
Qed.

Lemma collect_rows_skips_unknown_witness :
  AirQuality.collect_rows
    ([("Delhi", openaq_doc)]
       ++ ("Pune", AirQuality.JObj [("status", AirQuality.JStr "ok")])
       :: [("Delhi", hourly_doc 1 AirQuality.pollutant_cols)])
  = AirQuality.collect_rows
      ([("Delhi", openaq_doc)] ++ [("Delhi", hourly_doc 1 AirQuality.pollutant_cols)]).
Proof.
  apply (collect_rows_skips_unknown [("Delhi", openaq_doc)]
           [("Delhi", hourly_doc 1 AirQuality.pollutant_cols)] "Pune"
           [("status", AirQuality.JStr "ok")]); reflexivity.
Defined.

(** X15. When no document has a recognised shape, or there is no document at
    all, no row is collected and the frame has no columns: [dropna] then
    raises [KeyError], and the transform writes no staged file. *)
Theorem no_rows_raises_key_error (docs : list (string * AirQuality.json)) :
  Forall (fun d => exists items,
            d.2 = AirQuality.JObj items /\
            AirQuality.obj_get items "results" = None /\
            AirQuality.obj_get items "hourly" = None) docs ->
  AirQuality.collect_rows docs = Ok [] /\
  (rows ← AirQuality.collect_rows docs; AirFrame.dropna_all rows) = Raise KeyError.
Proof.
  intros H.
  assert (AirQuality.collect_rows docs = Ok []) as E.
  { unfold AirQuality.collect_rows.
    assert (for_each (fun d => AirQuality.document_rows d.1 d.2) docs
            = Ok (map (fun _ => []) docs)) as ->.
    { induction H as [|d docs (items & Hd & H1 & H2) _ IH]; [reflexivity|].
      cbn [for_each map]. rewrite Hd, (document_rows_unknown _ _ H1 H2), IH. reflexivity. }
    cbn [mbind result_bind]. f_equal. clear H.
    induction docs as [|d docs IH]; [reflexivity|cbn; exact IH]. }
  split; [exact E|]. rewrite E. reflexivity.
Qed.

Lemma no_rows_raises_key_error_witness :
  AirQuality.collect_rows [("Pune", AirQuality.JObj [("status", AirQuality.JStr "ok")])]
    = Ok [] /\
  (rows ← AirQuality.collect_rows
            [("Pune", AirQuality.JObj [("status", AirQuality.JStr "ok")])];
   AirFrame.dropna_all rows) = Raise KeyError.
Proof.
  apply (no_rows_raises_key_error
           [("Pune", AirQuality.JObj [("status", AirQuality.JStr "ok")])]).
  repeat constructor. eexists. split; [reflexivity|]. split; reflexivity.
Defined.

(** ** The Open-Meteo shape in general *)

Lemma for_each_not_returns {A B : Type} (f : A -> result B) xs x :
  x ∈ xs -> ~ returns (f x) -> ~ returns (for_each f xs).
Proof.
  intros Hx Hf Hret. apply returns_for_each in Hret.
  rewrite Forall_forall in Hret. exact (Hf (Hret x Hx)).
Qed.

Lemma hourly_row_missing_array city_name items times p i :
  p ∈ AirQuality.pollutant_cols ->
  AirQuality.obj_get items p = None ->
  ~ returns (AirQuality.hourly_row city_name (AirQuality.JObj items) times (S i)).
Proof.
  intros Hp Hnone. unfold AirQuality.hourly_row.
  destruct (AirQuality.index times (S i)); cbn [mbind result_bind]; [|intros []].
  unfold AirQuality.pollutant_cols in Hp.
  repeat (apply elem_of_cons in Hp as [->|Hp];
          [rewrite (hourly_value_default items _ (S i) Hnone);
           repeat match goal with
           | |- context [AirQuality.hourly_value ?h ?k ?j] =>
               destruct (AirQuality.hourly_value h k j); cbn [mbind result_bind]
           end; intros []|]).
  apply elem_of_nil in Hp. destruct Hp.
Qed.

(** X16. An Open-Meteo document with two or more timestamps and one of the six
    pollutant arrays missing never yields rows: [document_rows] raises,
    whatever else the document holds. *)
Theorem hourly_missing_array_never_returns city_name doc items n p :
  AirQuality.obj_get doc "results" = None ->
  AirQuality.obj_get doc "hourly" = Some (AirQuality.JObj items) ->
  AirQuality.len (default (AirQuality.JArr []) (AirQuality.obj_get items "time")) = Ok n ->
  2 <= n ->
  p ∈ AirQuality.pollutant_cols ->
  AirQuality.obj_get items p = None ->
  ~ returns (AirQuality.document_rows city_name (AirQuality.JObj doc)).
Proof.
  intros Hres Hhourly Hlen Hn Hp Hnone.
  unfold AirQuality.document_rows, AirQuality.contains, AirQuality.getitem.
  rewrite Hres, Hhourly. cbn [mbind result_bind AirQuality.get].
  rewrite bool_decide_eq_false_2 by (intros [? ?]; discriminate).
  rewrite bool_decide_eq_true_2 by eauto.
  rewrite Hlen. cbn [mbind result_bind].
  apply (for_each_not_returns _ _ 1).
  - unfold range. apply elem_of_seq. lia.
  - eapply hourly_row_missing_array; eassumption.
Qed.

Lemma hourly_missing_array_never_returns_witness :
  ~ returns (AirQuality.document_rows "Delhi"
               (AirQuality.JObj
                  [("hourly",
                    AirQuality.JObj
                      [("time", AirQuality.JArr [AirQuality.JStr "00:00"; AirQuality.JStr "01:00"]);
                       ("pm10", AirQuality.JArr [AirQuality.JNum 1; AirQuality.JNum 2])])])).
Proof.
  apply (hourly_missing_array_never_returns "Delhi"
           [("hourly",
             AirQuality.JObj
               [("time", AirQuality.JArr [AirQuality.JStr "00:00"; AirQuality.JStr "01:00"]);
                ("pm10", AirQuality.JArr [AirQuality.JNum 1; AirQuality.JNum 2])])]
           [("time", AirQuality.JArr [AirQuality.JStr "00:00"; AirQuality.JStr "01:00"]);
            ("pm10", AirQuality.JArr [AirQuality.JNum 1; AirQuality.JNum 2])]
           2 "ozone");
    [reflexivity|reflexivity|reflexivity|lia| |reflexivity].
  unfold AirQuality.pollutant_cols. repeat constructor.
Defined.

Lemma for_each_seq_spec {B : Type} (f : nat -> result B) (P : nat -> B -> Prop) n j :
  (forall i, j <= i < j + n -> exists b, f i = Ok b /\ P i b) ->
  exists bs,
    for_each f (seq j n) = Ok bs /\ length bs = n /\
    forall k b, bs !! k = Some b -> P (j + k) b.
Proof.
  revert j. induction n as [|n IH]; intros j H.
  - exists []. split; [reflexivity|]. split; [reflexivity|]. intros k b Hk. discriminate.
  - destruct (H j ltac:(lia)) as (b0 & E0 & P0).
    destruct (IH (S j)) as (bs & E & Hlen & HP).
    { intros i Hi. apply H. lia. }
    exists (b0 :: bs). cbn [seq for_each]. rewrite E0, E. cbn [mbind result_bind].
    split; [reflexivity|]. split; [cbn; lia|].
    intros [|k] b Hk; cbn in Hk.
    + injection Hk as <-. rewrite Nat.add_0_r. exact P0.
    + replace (j + S k) with (S j + k) by lia. apply HP. exact Hk.
Qed.

Section HourlyComplete.
Import AirQuality.
Variable city_name : string.
Variable items : list (string * json).
Variable times : list json.
Hypothesis Harr : forall p, p ∈ pollutant_cols ->
  exists arr, obj_get items p = Some (JArr arr) /\ length times <= length arr.
Hypothesis Huv : obj_get items "uv_index" = None \/
  exists arr, obj_get items "uv_index" = Some (JArr arr) /\ length times <= length arr.

Lemma hourly_value_present key arr i v :
  obj_get items key = Some (JArr arr) -> arr !! i = Some v ->
  hourly_value (JObj items) key i = Ok v.
Proof.
  intros E V. unfold hourly_value, get. rewrite E. cbn. rewrite V. reflexivity.
Qed.

Lemma hourly_row_complete i t :
  times !! i = Some t ->
  exists row : gmap string json,
    hourly_row city_name (JObj items) (JArr times) i = Ok row /\
    row !! "city" = Some (JStr city_name) /\
    row !! "time" = Some t /\
    (forall p arr, p ∈ pollutant_cols -> obj_get items p = Some (JArr arr) ->
                   row !! p = arr !! i) /\
    (obj_get items "uv_index" = None -> row !! "uv_index" = Some JNull).
Proof.
  intros Ht. pose proof (lookup_lt_Some _ _ _ Ht) as Hi.
  destruct (Harr "pm10") as (a1 & E1 & L1); [unfold pollutant_cols; repeat constructor|].
  destruct (Harr "pm2_5") as (a2 & E2 & L2); [unfold pollutant_cols; repeat constructor|].
  destruct (Harr "carbon_monoxide") as (a3 & E3 & L3); [unfold pollutant_cols; repeat constructor|].
  destruct (Harr "nitrogen_dioxide") as (a4 & E4 & L4); [unfold pollutant_cols; repeat constructor|].
  destruct (Harr "sulphur_dioxide") as (a5 & E5 & L5); [unfold pollutant_cols; repeat constructor|].
  destruct (Harr "ozone") as (a6 & E6 & L6); [unfold pollutant_cols; repeat constructor|].
  destruct (lookup_lt_is_Some_2 a1 i ltac:(lia)) as [v1 V1].
  destruct (lookup_lt_is_Some_2 a2 i ltac:(lia)) as [v2 V2].
  destruct (lookup_lt_is_Some_2 a3 i ltac:(lia)) as [v3 V3].
  destruct (lookup_lt_is_Some_2 a4 i ltac:(lia)) as [v4 V4].
  destruct (lookup_lt_is_Some_2 a5 i ltac:(lia)) as [v5 V5].
  destruct (lookup_lt_is_Some_2 a6 i ltac:(lia)) as [v6 V6].
  assert (exists u, (has_uv ← contains (JObj items) "uv_index";
                     if has_uv : bool then hourly_value (JObj items) "uv_index" i
                     else Ok JNull) = Ok u /\
                    (obj_get items "uv_index" = None -> u = JNull)) as (u & Eu & Hu).
  { unfold contains, hourly_value, get, index. cbn [mbind result_bind].
    destruct Huv as [Hn|(au & Eau & Lau)].
    - rewrite Hn. rewrite bool_decide_eq_false_2 by (intros [? ?]; discriminate).
      exists JNull. split; reflexivity.
    - rewrite Eau. rewrite bool_decide_eq_true_2 by eauto. cbn [from_option id].
      destruct (lookup_lt_is_Some_2 au i ltac:(lia)) as [vu Vu]. rewrite Vu.
      exists vu. split; [reflexivity|discriminate]. }
  unfold hourly_row. cbn [index]. rewrite Ht. cbn [mbind result_bind].
  rewrite (hourly_value_present _ _ _ _ E1 V1). cbn [mbind result_bind].
  rewrite (hourly_value_present _ _ _ _ E2 V2). cbn [mbind result_bind].
  rewrite (hourly_value_present _ _ _ _ E3 V3). cbn [mbind result_bind].
  rewrite (hourly_value_present _ _ _ _ E4 V4). cbn [mbind result_bind].
  rewrite (hourly_value_present _ _ _ _ E5 V5). cbn [mbind result_bind].
  rewrite (hourly_value_present _ _ _ _ E6 V6). cbn [mbind result_bind].
  cbn [mbind result_bind] in Eu.
  destruct (contains (JObj items) "uv_index") as [has_uv|e]; [|discriminate].
  cbn [mbind result_bind] in Eu |- *. rewrite Eu. cbn [mbind result_bind].
  eexists. split; [reflexivity|].
  split; [vm_compute; reflexivity|]. split; [vm_compute; reflexivity|]. split.
  - intros p arr Hp Hobj. unfold pollutant_cols in Hp.
    repeat (apply elem_of_cons in Hp as [->|Hp];
            [match goal with
             | V : ?a !! i = Some ?v |- _ =>
                 assert (arr = a) as -> by congruence; rewrite V; vm_compute; reflexivity
             end|]).
    apply elem_of_nil in Hp. destruct Hp.
  - intros Hn. rewrite (Hu Hn). vm_compute. reflexivity.
Qed.
End HourlyComplete.

(** X17. An Open-Meteo document whose six pollutant arrays are all present and
    no shorter than its list of timestamps gives one row per timestamp, in
    order: row [i] has the city of the file, timestamp [i] and element [i]
    of every array; a missing [uv_index] array is [None] in every row. *)
Theorem hourly_rows_complete city_name doc items times :
  AirQuality.obj_get doc "results" = None ->
  AirQuality.obj_get doc "hourly" = Some (AirQuality.JObj items) ->
  AirQuality.obj_get items "time" = Some (AirQuality.JArr times) ->
  (forall p, p ∈ AirQuality.pollutant_cols ->
     exists arr, AirQuality.obj_get items p = Some (AirQuality.JArr arr) /\
                 length times <= length arr) ->
  (AirQuality.obj_get items "uv_index" = None \/
   exists arr, AirQuality.obj_get items "uv_index" = Some (AirQuality.JArr arr) /\
               length times <= length arr) ->
  exists rows : list (gmap string AirQuality.json),
    AirQuality.document_rows city_name (AirQuality.JObj doc) = Ok rows /\
    length rows = length times /\
    forall i row, rows !! i = Some row ->
      row !! "city" = Some (AirQuality.JStr city_name) /\
      row !! "time" = times !! i /\
      (forall p arr, p ∈ AirQuality.pollutant_cols ->
         AirQuality.obj_get items p = Some (AirQuality.JArr arr) -> row !! p = arr !! i) /\
      (AirQuality.obj_get items "uv_index" = None ->
       row !! "uv_index" = Some AirQuality.JNull).
Proof.
  intros Hres Hhourly Htime Harr Huv.
  unfold AirQuality.document_rows, AirQuality.contains, AirQuality.getitem.
  rewrite Hres, Hhourly. cbn [mbind result_bind AirQuality.get].
  rewrite bool_decide_eq_false_2 by (intros [? ?]; discriminate).
  rewrite bool_decide_eq_true_2 by eauto.
  rewrite Htime. cbn [from_option id AirQuality.len mbind result_bind]. unfold range.
  destruct (for_each_seq_spec
              (AirQuality.hourly_row city_name (AirQuality.JObj items) (AirQuality.JArr times))
              (fun i (row : gmap string AirQuality.json) =>
                 row !! "city" = Some (AirQuality.JStr city_name) /\
                 row !! "time" = times !! i /\
                 (forall p arr, p ∈ AirQuality.pollutant_cols ->
                    AirQuality.obj_get items p = Some (AirQuality.JArr arr) ->
                    row !! p = arr !! i) /\
                 (AirQuality.obj_get items "uv_index" = None ->
                  row !! "uv_index" = Some AirQuality.JNull))
              (length times) 0) as (rows & E & Hlen & Hrows).
  - intros i Hi. destruct (lookup_lt_is_Some_2 times i ltac:(lia)) as [t Ht].
    destruct (hourly_row_complete city_name items times Harr Huv i t Ht)
      as (row & Er & H1 & H2 & H3 & H4).
    exists row. rewrite Ht. auto.
  - exists rows. split; [exact E|]. split; [exact Hlen|].
    intros i row Hi. apply (Hrows i row Hi).
Qed.

Lemma hourly_rows_complete_witness :
  exists rows : list (gmap string AirQuality.json),
    AirQuality.document_rows "Delhi"
      (AirQuality.JObj [("hourly", AirQuality.JObj two_hour_items)]) = Ok rows /\
    length rows = length two_hours /\
    forall i row, rows !! i = Some row ->
      row !! "city" = Some (AirQuality.JStr "Delhi") /\
      row !! "time" = two_hours !! i /\
      (forall p arr, p ∈ AirQuality.pollutant_cols ->
         AirQuality.obj_get two_hour_items p = Some (AirQuality.JArr arr) ->
         row !! p = arr !! i) /\
      (AirQuality.obj_get two_hour_items "uv_index" = None ->
       row !! "uv_index" = Some AirQuality.JNull).
Proof.
  apply (hourly_rows_complete "Delhi" [("hourly", AirQuality.JObj two_hour_items)]
           two_hour_items two_hours); [reflexivity|reflexivity|reflexivity| |left; reflexivity].
  intros p Hp. unfold AirQuality.pollutant_cols in Hp.
  repeat (apply elem_of_cons in Hp as [->|Hp];
          [eexists; split; [reflexivity|cbn; lia]|]).
  apply elem_of_nil in Hp. destruct Hp.
Defined.

(** ** Customer segments of the analysis and tenure groups of the transform *)

Ltac segment_cases H :=
  unfold Churn.tenure_group, Churn.cut, Churn.cut_cell, ChurnAnalysis.categorize_customers;
  cbn [length Churn.tenure_labels Churn.tenure_bins Nat.eqb Nat.sub negb for_each];
  rewrite H;
  unfold Churn.cut_code, Churn.searchsorted, Churn.tenure_bins, of_Z, inject_Z;
  cbn [length List.filter ltb leb eqb isnan orb andb];
  qcases; cbn.

(** X18. The analysis computes its customer segments from the tenure again,
    with bands closed at the lower edge, where the transform closed them
    at the upper edge: for a tenure of 0 or more, [customer_segment] and
    [tenure_group] name the same band except at exactly 12, 36 and 60
    months. *)
Theorem segment_differs_from_tenure_group_at_edges (c : Churn.cell) (q : Q) :
  Churn.as_float c = Some (FFin q) ->
  (0 <= q)%Q ->
  Churn.tenure_group [c] = Ok [Churn.CStr (ChurnAnalysis.categorize_customers (FFin q))]
  <-> ~ (q == 12 \/ q == 36 \/ q == 60)%Q.
Proof.
  intros Hc Hq. segment_cases Hc;
    (split;
     [intros Heq Hor; first [discriminate Heq | destruct Hor as [Hor|[Hor|Hor]]; lra]
     |intros Hn; first [reflexivity | exfalso; lra
                       | exfalso; apply Hn;
                         first [left; lra | right; left; lra | right; right; lra]]]).
Qed.

Lemma segment_differs_from_tenure_group_at_edges_witness :
  (Churn.tenure_group [Churn.CInt 12]
     = Ok [Churn.CStr (ChurnAnalysis.categorize_customers (FFin 12))]
   <-> ~ (12 == 12 \/ 12 == 36 \/ 12 == 60)%Q) /\
  (Churn.tenure_group [Churn.CInt 13]
     = Ok [Churn.CStr (ChurnAnalysis.categorize_customers (FFin 13))]
   <-> ~ (13 == 12 \/ 13 == 36 \/ 13 == 60)%Q).
Proof.
  split.
  - apply (segment_differs_from_tenure_group_at_edges (Churn.CInt 12) 12 eq_refl). lra.
  - apply (segment_differs_from_tenure_group_at_edges (Churn.CInt 13) 13 eq_refl). lra.
Defined.

Example segments_at_twelve_months :
  ChurnAnalysis.categorize_customers (of_Z 12) = "Regular" /\
  Churn.tenure_group [Churn.CInt 12] = Ok [Churn.CStr "New"].
Proof. split; reflexivity. Qed.

Lemma categorize_customers_label x :
  ChurnAnalysis.categorize_customers x = "New" \/
  ChurnAnalysis.categorize_customers x = "Regular" \/
  ChurnAnalysis.categorize_customers x = "Loyal" \/
  ChurnAnalysis.categorize_customers x = "Champion".
Proof.
  unfold ChurnAnalysis.categorize_customers.
  destruct (ltb x (of_Z 12)); [tauto|].
  destruct (leb (of_Z 12) x && ltb x (of_Z 36)); [tauto|].
  destruct (leb (of_Z 36) x && ltb x (of_Z 60)); tauto.
Qed.

(** X19. The four segment counts of the summary add up to the number of rows:
    [categorize_customers] puts every tenure in one of its four segments,
    a missing one (NaN, for which every comparison is false) in
    ["Champion"]. *)
Theorem segment_counts_cover_rows (tenure : list float) :
  ChurnAnalysis.count_new_customers (ChurnAnalysis.segment_counts tenure)
  + ChurnAnalysis.count_regular_customers (ChurnAnalysis.segment_counts tenure)
  + ChurnAnalysis.count_loyal_customers (ChurnAnalysis.segment_counts tenure)
  + ChurnAnalysis.count_champion_customers (ChurnAnalysis.segment_counts tenure)
  = length tenure /\
  length (List.filter isnan tenure)
  <= ChurnAnalysis.count_champion_customers (ChurnAnalysis.segment_counts tenure).
Proof.
  unfold ChurnAnalysis.segment_counts, ChurnAnalysis.customer_segment,
    ChurnAnalysis.value_count.
  cbn [ChurnAnalysis.count_new_customers ChurnAnalysis.count_regular_customers
       ChurnAnalysis.count_loyal_customers ChurnAnalysis.count_champion_customers].
  induction tenure as [|x xs [IH1 IH2]]; [split; reflexivity|].
  cbn [map List.filter length].
  assert (isnan x = true -> ChurnAnalysis.categorize_customers x = "Champion") as Hnan.
  { destruct x; try discriminate. reflexivity. }
  destruct (categorize_customers_label x) as [E|[E|[E|E]]]; rewrite E;
    eval_eqb; cbn [length];
    (split; [lia|]);
    (destruct (isnan x) eqn:En;
     [specialize (Hnan eq_refl); rewrite E in Hnan; try discriminate Hnan|]);
    cbn [length]; lia.
Qed.

(** ** What the validator finds in a table the transform produced *)

Lemma cut_cell_label bins labels right include_lowest c c' :
  Churn.cut_cell bins labels right include_lowest c = Ok c' ->
  c' = Churn.CFloat FNaN \/ exists l, l ∈ labels /\ c' = Churn.CStr l.
Proof.
  unfold Churn.cut_cell. destruct (Churn.as_float c) as [x|]; [|discriminate].
  destruct (Churn.cut_code bins right include_lowest x) as [i|]; [|intros [= <-]; tauto].
  destruct (labels !! i) as [l|] eqn:El; intros [= <-]; [|tauto].
  right. exists l. split; [|reflexivity]. eapply list_elem_of_lookup_2. exact El.
Qed.

Lemma tenure_group_labels col tg :
  Churn.tenure_group col = Ok tg ->
  Forall (fun c => c = Churn.CFloat FNaN \/
                   exists l, l ∈ Churn.tenure_labels /\ c = Churn.CStr l) tg.
Proof.
  unfold Churn.tenure_group, Churn.cut.
  destruct (negb _); [discriminate|]. rewrite for_each_Forall2. intros H.
  induction H as [|c c' col tg Hc _ IH]; constructor; [|exact IH].
  eapply cut_cell_label. exact Hc.
Qed.

(** X20. The validator expects the tenure groups ["0-12"], ["12-24"], ...,
    ["72+"], and the transform names them New, Regular, Loyal and
    Champion: on any table whose [tenure_group] column the transform
    produced, the validator reports all six expected groups as missing. *)
Theorem validator_reports_every_tenure_group_missing col tg :
  Churn.tenure_group col = Ok tg ->
  ChurnValidate.missing_tenure_groups (Some tg) = ChurnValidate.expected_tenure_groups.
Proof.
  intros H. apply tenure_group_labels in H.
  unfold ChurnValidate.missing_tenure_groups. cbn [from_option].
  apply set_eq. intros x. rewrite elem_of_difference.
  split; [tauto|]. intros Hx. split; [exact Hx|].
  unfold ChurnValidate.labels_present. rewrite elem_of_list_to_set, list_elem_of_omap.
  intros (c & Hc & Hs). rewrite Forall_forall in H.
  destruct (H c Hc) as [Ec|(l & Hl & Ec)]; subst c; [discriminate|].
  injection Hs as Ex. subst x.
  unfold ChurnValidate.expected_tenure_groups in Hx. rewrite elem_of_list_to_set in Hx.
  unfold Churn.tenure_labels in Hl.
  repeat (apply elem_of_cons in Hl as [->|Hl];
          [repeat (apply elem_of_cons in Hx as [Hx|Hx]; [discriminate Hx|]);
           apply elem_of_nil in Hx; destruct Hx|]).
  apply elem_of_nil in Hl. destruct Hl.
Qed.

Lemma validator_reports_every_tenure_group_missing_witness :
  ChurnValidate.missing_tenure_groups
    (Some [Churn.CStr "New"; Churn.CStr "Regular"; Churn.CStr "Loyal"; Churn.CStr "Champion";
           Churn.CFloat FNaN])
  = ChurnValidate.expected_tenure_groups.
Proof.
  apply (validator_reports_every_tenure_group_missing
           [Churn.CInt 5; Churn.CInt 20; Churn.CInt 40; Churn.CInt 70; Churn.CInt (-1)]).
  reflexivity.
Defined.

Lemma contract_codes_legal s v :
  Churn.contract_codes !! s = Some v -> v = 0%Z \/ v = 1%Z \/ v = 2%Z.
Proof.
  unfold Churn.contract_codes. cbn [list_to_map foldr uncurry fst snd].
  rewrite !lookup_insert. repeat case_decide; rewrite ?lookup_empty;
    intros [= <-]; tauto.
Qed.

(** X21. Whatever the [Contract] column holds, the codes the transform derives
    from it pass the validator's check: each is 0, 1 or 2, or missing, and
    the validator drops the missing ones before it compares. *)
Theorem contract_codes_pass_validation (contract : list Churn.cell) :
  ChurnValidate.invalid_contract_codes (map Churn.contract_type_code contract) = [].
Proof.
  unfold ChurnValidate.invalid_contract_codes.
  induction contract as [|c rest IH]; [reflexivity|].
  cbn [map List.filter]. rewrite IH.
  unfold Churn.contract_type_code, Churn.map_dict.
  destruct c as [| |s| |]; try reflexivity.
  destruct (Churn.contract_codes !! s) as [v|] eqn:E; [|reflexivity].
  destruct (contract_codes_legal _ _ E) as [-> | [-> | ->]]; reflexivity.
Qed.

Example unknown_contract_passes_validation :
  map Churn.contract_type_code [Churn.CStr "Weekly"; Churn.CStr "One year"; Churn.CNone]
    = [Churn.CFloat FNaN; Churn.CInt 1; Churn.CFloat FNaN] /\
  ChurnValidate.missing_values
    (map Churn.contract_type_code [Churn.CStr "Weekly"; Churn.CStr "One year"; Churn.CNone])
    = 2.
Proof. split; vm_compute; reflexivity. Qed.

(** ** The frame the churn transform returns *)

Lemma getcol_Ok (df : gmap string (list Churn.cell)) k c :
  Churn.getcol df k = Ok c <-> df !! k = Some c.
Proof.
  unfold Churn.getcol. destruct (df !! k); split; intros H; congruence.
Qed.

Lemma shape_lookup (df : gmap string (list Churn.cell)) k c :
  df !! k = Some c -> (length <$> df) !! k = Some (length c).
Proof. intros H. rewrite lookup_fmap, H. reflexivity. Qed.

Lemma shape_insert_same (df : gmap string (list Churn.cell)) k c c' :
  df !! k = Some c -> length c' = length c ->
  length <$> <[k := c']> df = length <$> df.
Proof.
  intros H Hl. rewrite fmap_insert, Hl. apply insert_id. apply shape_lookup, H.
Qed.

Lemma fill_numeric_shape cols (df df' : gmap string (list Churn.cell)) :
  Churn.fill_numeric cols df = Ok df' -> length <$> df' = length <$> df.
Proof.
  revert df. induction cols as [|col rest IH]; intros df; cbn [Churn.fill_numeric].
  - intros [= <-]. reflexivity.
  - destruct (Churn.getcol df col) as [c|e] eqn:E; cbn [mbind result_bind]; [|discriminate].
    intros H. apply IH in H. rewrite H. apply getcol_Ok in E.
    eapply shape_insert_same; [exact E|]. unfold Churn.fillna. apply length_map.
Qed.

Lemma fill_categorical_shape (df : gmap string (list Churn.cell)) :
  length <$> Churn.fill_categorical df = length <$> df.
Proof.
  unfold Churn.fill_categorical. rewrite <- map_fmap_compose.
  apply map_fmap_ext. intros k col _. cbn.
  destruct (Churn.is_object col); [|reflexivity]. unfold Churn.fillna. apply length_map.
Qed.

Lemma cut_length col bins labels right include_lowest out :
  Churn.cut col bins labels right include_lowest = Ok out -> length out = length col.
Proof.
  unfold Churn.cut. destruct (negb _); [discriminate|]. apply for_each_length.
Qed.

(** X22. When [transform_data] returns, the frame it read had the eight columns
    it uses, and the frame it returns has the columns it read without
    [customerID] and [gender], each with as many rows as before, and the
    five derived columns, each with one value per row of the column it is
    derived from. *)
Theorem transform_data_schema parse_number (df out : gmap string (list Churn.cell)) :
  Churn.transform_data parse_number df = Ok out ->
  exists nt nc ni nl nk,
    (length <$> df) !! "tenure" = Some nt /\
    (length <$> df) !! "MonthlyCharges" = Some nc /\
    (length <$> df) !! "InternetService" = Some ni /\
    (length <$> df) !! "MultipleLines" = Some nl /\
    (length <$> df) !! "Contract" = Some nk /\
    is_Some (df !! "TotalCharges") /\
    is_Some (df !! "customerID") /\
    is_Some (df !! "gender") /\
    length <$> out
    = delete "gender" (delete "customerID"
        (<["contract_type_code" := nk]> (<["is_multi_line_user" := nl]>
        (<["has_internet_service" := ni]> (<["monthly_charge_segment" := nc]>
        (<["tenure_group" := nt]> (length <$> df))))))).
Proof.
  unfold Churn.transform_data.
  destruct (Churn.getcol df "TotalCharges") as [total|e] eqn:Etotal;
    cbn [mbind result_bind]; [|discriminate].
  apply getcol_Ok in Etotal.
  destruct (Churn.fill_numeric _ _) as [df2|e] eqn:Efill; cbn [mbind result_bind];
    [|discriminate].
  apply fill_numeric_shape in Efill.
  rewrite (shape_insert_same df _ total _ Etotal (length_map _ _)) in Efill.
  pose proof (fill_categorical_shape df2) as Hcat. rewrite Efill in Hcat.
  set (df3 := Churn.fill_categorical df2) in *.
  assert (forall k c, df3 !! k = Some c -> (length <$> df) !! k = Some (length c)) as Hshape.
  { intros k c Hk. rewrite <- Hcat. apply shape_lookup, Hk. }
  destruct (Churn.getcol df3 "tenure") as [tenure|e] eqn:Et; cbn [mbind result_bind];
    [|discriminate].
  apply getcol_Ok in Et.
  destruct (Churn.tenure_group tenure) as [tg|e] eqn:Etg; cbn [mbind result_bind];
    [|discriminate].
  apply cut_length in Etg.
  destruct (Churn.getcol _ "MonthlyCharges") as [charges|e] eqn:Ec; cbn [mbind result_bind];
    [|discriminate].
  apply getcol_Ok in Ec. rewrite lookup_insert_ne in Ec by discriminate.
  destruct (Churn.monthly_charge_segment charges) as [seg|e] eqn:Eseg;
    cbn [mbind result_bind]; [|discriminate].
  apply cut_length in Eseg.
  destruct (Churn.getcol _ "InternetService") as [internet|e] eqn:Ei;
    cbn [mbind result_bind]; [|discriminate].
  apply getcol_Ok in Ei. rewrite !lookup_insert_ne in Ei by discriminate.
  destruct (Churn.getcol _ "MultipleLines") as [lines|e] eqn:El;
    cbn [mbind result_bind]; [|discriminate].
  apply getcol_Ok in El. rewrite !lookup_insert_ne in El by discriminate.
  destruct (Churn.getcol _ "Contract") as [contract|e] eqn:Ek;
    cbn [mbind result_bind]; [|discriminate].
  apply getcol_Ok in Ek. rewrite !lookup_insert_ne in Ek by discriminate.
  cbn [Churn.drop_columns].
  destruct (Churn.getcol _ "customerID") as [cid|e] eqn:Eid;
    cbn [mbind result_bind]; [|discriminate].
  apply getcol_Ok in Eid. rewrite !lookup_insert_ne in Eid by discriminate.
  destruct (Churn.getcol _ "gender") as [gender|e] eqn:Eg;
    cbn [mbind result_bind]; [|discriminate].
  apply getcol_Ok in Eg. rewrite lookup_delete_ne in Eg by discriminate.
  rewrite !lookup_insert_ne in Eg by discriminate.
  intros [= <-].
  exists (length tenure), (length charges), (length internet), (length lines),
    (length contract).
  split; [apply Hshape, Et|]. split; [apply Hshape, Ec|]. split; [apply Hshape, Ei|].
  split; [apply Hshape, El|]. split; [apply Hshape, Ek|]. split; [eauto|].
  split.
  { apply Hshape in Eid. rewrite lookup_fmap in Eid.
    destruct (df !! "customerID"); [eauto|discriminate]. }
  split.
  { apply Hshape in Eg. rewrite lookup_fmap in Eg.
    destruct (df !! "gender"); [eauto|discriminate]. }
  rewrite !fmap_delete, !fmap_insert, !length_map, Etg, Eseg, Hcat. reflexivity.
Qed.

Lemma transform_data_schema_witness :
  exists nt nc ni nl nk,
    (length <$> churn_sample) !! "tenure" = Some nt /\
    (length <$> churn_sample) !! "MonthlyCharges" = Some nc /\
    (length <$> churn_sample) !! "InternetService" = Some ni /\
    (length <$> churn_sample) !! "MultipleLines" = Some nl /\
    (length <$> churn_sample) !! "Contract" = Some nk /\
    is_Some (churn_sample !! "TotalCharges") /\
    is_Some (churn_sample !! "customerID") /\
    is_Some (churn_sample !! "gender") /\
    length <$> churn_sample_out
    = delete "gender" (delete "customerID"
        (<["contract_type_code" := nk]> (<["is_multi_line_user" := nl]>
        (<["has_internet_service" := ni]> (<["monthly_charge_segment" := nc]>
        (<["tenure_group" := nt]> (length <$> churn_sample))))))).
Proof.
  apply (transform_data_schema parse_sample churn_sample churn_sample_out).
  vm_compute. reflexivity.
Defined.

Example transform_data_without_gender :
  Churn.transform_data parse_sample (delete "gender" churn_sample) = Raise KeyError.
Proof. vm_compute. reflexivity. Qed.
